(** * Bedrock proxy endpoint: model registry, request/response core and
      the chat-completion handlers

    The development follows the layout of the repository:

    - [src/api/local-modules/bedrock-wrapper/bedrock-models.js]: the model
      registry [bedrock_models], a JavaScript array of object literals,
      transcribed entry by entry as JSON values;
    - the model abstraction and streaming normalisation core (registry
      lookup, request builder, path extractor, streaming decoder), whose
      module is not part of the sources at hand and is modelled from the
      written specification;
    - the Express handlers of [POST /v1/chat/completions] in
      [src/api/server.js] and in the serverless variant of the server,
      as state-passing programs over an explicit response object. *)

From Stdlib Require Import List String Ascii Bool Arith ZArith QArith Lia.
From Stdlib Require Import DecimalString.
Import ListNotations.

Close Scope Q_scope.
Open Scope list_scope.
Open Scope string_scope.

Set Implicit Arguments.
Set Warnings "-register-all".

(** Results of fallible operations. *)
Inductive result (E A : Type) : Type :=
| Ok (a : A)
| Err (e : E).

Arguments Ok {E A} a.
Arguments Err {E A} e.

(** ** JSON values *)

(** JavaScript values as they occur in the registry, in backend events
    and in the response objects the handlers serialise.  Numbers are
    rationals: every numeric literal of the sources denotes one.  An
    object keeps its properties in source order. *)
Inductive JValue : Type :=
| JNull
| JBool (b : bool)
| JNum (q : Q)
| JStr (s : string)
| JArr (items : list JValue)
| JObj (fields : list (string * JValue)).

Arguments JNum q%_Q.

(** [assoc k fs]: the value bound to property [k], [None] standing for
    JavaScript's [undefined]. *)
Fixpoint assoc (k : string) (fs : list (string * JValue)) : option JValue :=
  match fs with
  | [] => None
  | (k', v) :: rest => if String.eqb k k' then Some v else assoc k rest
  end.

(** [o.k] on a value: only objects carry named properties here. *)
Definition prop (k : string) (v : JValue) : option JValue :=
  match v with
  | JObj fs => assoc k fs
  | _ => None
  end.

(** [a[i]] on a value. *)
Definition item (i : nat) (v : JValue) : option JValue :=
  match v with
  | JArr xs => nth_error xs i
  | _ => None
  end.

Definition as_string (v : option JValue) : option string :=
  match v with Some (JStr s) => Some s | _ => None end.

Definition as_bool (v : option JValue) : option bool :=
  match v with Some (JBool b) => Some b | _ => None end.

(** A number that is an integer, as the registry's token limits are. *)
Definition as_int (v : option JValue) : option Z :=
  match v with
  | Some (JNum q) => if Pos.eqb (Qden q) 1 then Some (Qnum q) else None
  | _ => None
  end.

Definition is_defined {A : Type} (o : option A) : bool :=
  match o with Some _ => true | None => false end.

(** The newline character of the template literals. *)
Definition LF : string := String (ascii_of_nat 10) EmptyString.

(** Decimal rendering of an integer, as a template literal prints a
    number that is an integer. *)
Definition string_of_Z (z : Z) : string := NilZero.string_of_int (Z.to_int z).

(** ** The model registry ([bedrock-models.js]) *)

Module Registry.

Definition Claude_3_7_Sonnet : JValue :=
  JObj
    [ ("modelName",                     JStr "Claude-3-7-Sonnet");
      ("modelId",                       JStr "arn:aws:bedrock:us-east-1:009160038668:inference-profile/us.anthropic.claude-sonnet-4-20250514-v1:0");
      ("messages_api",                  JBool true);
      ("system_as_separate_field",      JBool true);
      ("display_role_names",            JBool true);
      ("max_tokens_param_name",         JStr "max_tokens");
      ("max_supported_response_tokens", JNum 8192);
      ("response_chunk_element",        JStr "delta.text");
      ("response_nonchunk_element",     JStr "content[0].text");
      ("special_request_schema",        JObj [("anthropic_version", JStr "bedrock-2023-05-31")]) ].

Definition Claude_3_5_Sonnet_v2 : JValue :=
  JObj
    [ ("modelName",                     JStr "Claude-3-5-Sonnet-v2");
      ("modelId",                       JStr "arn:aws:bedrock:us-east-1:009160038668:inference-profile/us.anthropic.claude-3-5-sonnet-20241022-v2:0");
      ("messages_api",                  JBool true);
      ("system_as_separate_field",      JBool true);
      ("display_role_names",            JBool true);
      ("max_tokens_param_name",         JStr "max_tokens");
      ("max_supported_response_tokens", JNum 8192);
      ("response_chunk_element",        JStr "delta.text");
      ("response_nonchunk_element",     JStr "content[0].text");
      ("special_request_schema",        JObj [("anthropic_version", JStr "bedrock-2023-05-31")]) ].

Definition Claude_3_5_Sonnet : JValue :=
  JObj
    [ ("modelName",                     JStr "Claude-3-5-Sonnet");
      ("modelId",                       JStr "anthropic.claude-3-5-sonnet-20240620-v1:0");
      ("messages_api",                  JBool true);
      ("system_as_separate_field",      JBool true);
      ("display_role_names",            JBool true);
      ("max_tokens_param_name",         JStr "max_tokens");
      ("max_supported_response_tokens", JNum 8192);
      ("response_chunk_element",        JStr "delta.text");
      ("response_nonchunk_element",     JStr "content[0].text");
      ("special_request_schema",        JObj [("anthropic_version", JStr "bedrock-2023-05-31")]) ].

Definition Claude_3_Haiku : JValue :=
  JObj
    [ ("modelName",                     JStr "Claude-3-Haiku");
      ("modelId",                       JStr "anthropic.claude-3-haiku-20240307-v1:0");
      ("messages_api",                  JBool true);
      ("system_as_separate_field",      JBool true);
      ("display_role_names",            JBool true);
      ("max_tokens_param_name",         JStr "max_tokens");
      ("max_supported_response_tokens", JNum 8192);
      ("response_chunk_element",        JStr "delta.text");
      ("response_nonchunk_element",     JStr "content[0].text");
      ("special_request_schema",        JObj [("anthropic_version", JStr "bedrock-2023-05-31")]) ].

Definition Claude_3_5_Haiku : JValue :=
  JObj
    [ ("modelName",                     JStr "Claude-3-5-Haiku");
      ("modelId",                       JStr "arn:aws:bedrock:us-east-1:009160038668:inference-profile/us.anthropic.claude-3-5-haiku-20241022-v1:0");
      ("messages_api",                  JBool true);
      ("system_as_separate_field",      JBool true);
      ("display_role_names",            JBool true);
      ("max_tokens_param_name",         JStr "max_tokens");
      ("max_supported_response_tokens", JNum 8192);
      ("response_chunk_element",        JStr "delta.text");
      ("response_nonchunk_element",     JStr "content[0].text");
      ("special_request_schema",        JObj [("anthropic_version", JStr "bedrock-2023-05-31")]) ].

Definition Llama_3_2_1b : JValue :=
  JObj
    [ ("modelName",                     JStr "Llama-3-2-1b");
      ("modelId",                       JStr "us.meta.llama3-2-1b-instruct-v1:0");
      ("messages_api",                  JBool false);
      ("bos_text",                      JStr "<|begin_of_text|>");
      ("role_system_message_prefix",    JStr "");
      ("role_system_message_suffix",    JStr "");
      ("role_system_prefix",            JStr "<|start_header_id|>");
      ("role_system_suffix",            JStr "<|end_header_id|>");
      ("role_user_message_prefix",      JStr "");
      ("role_user_message_suffix",      JStr "");
      ("role_user_prefix",              JStr "<|start_header_id|>");
      ("role_user_suffix",              JStr "<|end_header_id|>");
      ("role_assistant_message_prefix", JStr "");
      ("role_assistant_message_suffix", JStr "");
      ("role_assistant_prefix",         JStr "<|start_header_id|>");
      ("role_assistant_suffix",         JStr "<|end_header_id|>");
      ("eom_text",                      JStr "<|eot_id|>");
      ("display_role_names",            JBool true);
      ("max_tokens_param_name",         JStr "max_gen_len");
      ("max_supported_response_tokens", JNum 2048);
      ("response_chunk_element",        JStr "generation") ].

Definition Llama_3_2_3b : JValue :=
  JObj
    [ ("modelName",                     JStr "Llama-3-2-3b");
      ("modelId",                       JStr "us.meta.llama3-2-3b-instruct-v1:0");
      ("messages_api",                  JBool false);
      ("bos_text",                      JStr "<|begin_of_text|>");
      ("role_system_message_prefix",    JStr "");
      ("role_system_message_suffix",    JStr "");
      ("role_system_prefix",            JStr "<|start_header_id|>");
      ("role_system_suffix",            JStr "<|end_header_id|>");
      ("role_user_message_prefix",      JStr "");
      ("role_user_message_suffix",      JStr "");
      ("role_user_prefix",              JStr "<|start_header_id|>");
      ("role_user_suffix",              JStr "<|end_header_id|>");
      ("role_assistant_message_prefix", JStr "");
      ("role_assistant_message_suffix", JStr "");
      ("role_assistant_prefix",         JStr "<|start_header_id|>");
      ("role_assistant_suffix",         JStr "<|end_header_id|>");
      ("eom_text",                      JStr "<|eot_id|>");
      ("display_role_names",            JBool true);
      ("max_tokens_param_name",         JStr "max_gen_len");
      ("max_supported_response_tokens", JNum 2048);
      ("response_chunk_element",        JStr "generation") ].

Definition Llama_3_2_11b : JValue :=
  JObj
    [ ("modelName",                     JStr "Llama-3-2-11b");
      ("modelId",                       JStr "us.meta.llama3-2-11b-instruct-v1:0");
      ("messages_api",                  JBool false);
      ("bos_text",                      JStr "<|begin_of_text|>");
      ("role_system_message_prefix",    JStr "");
      ("role_system_message_suffix",    JStr "");
      ("role_system_prefix",            JStr "<|start_header_id|>");
      ("role_system_suffix",            JStr "<|end_header_id|>");
      ("role_user_message_prefix",      JStr "");
      ("role_user_message_suffix",      JStr "");
      ("role_user_prefix",              JStr "<|start_header_id|>");
      ("role_user_suffix",              JStr "<|end_header_id|>");
      ("role_assistant_message_prefix", JStr "");
      ("role_assistant_message_suffix", JStr "");
      ("role_assistant_prefix",         JStr "<|start_header_id|>");
      ("role_assistant_suffix",         JStr "<|end_header_id|>");
      ("eom_text",                      JStr "<|eot_id|>");
      ("display_role_names",            JBool true);
      ("max_tokens_param_name",         JStr "max_gen_len");
      ("max_supported_response_tokens", JNum 2048);
      ("response_chunk_element",        JStr "generation") ].

Definition Llama_3_2_90b : JValue :=
  JObj
    [ ("modelName",                     JStr "Llama-3-2-90b");
      ("modelId",                       JStr "us.meta.llama3-2-90b-instruct-v1:0");
      ("messages_api",                  JBool false);
      ("bos_text",                      JStr "<|begin_of_text|>");
      ("role_system_message_prefix",    JStr "");
      ("role_system_message_suffix",    JStr "");
      ("role_system_prefix",            JStr "<|start_header_id|>");
      ("role_system_suffix",            JStr "<|end_header_id|>");
      ("role_user_message_prefix",      JStr "");
      ("role_user_message_suffix",      JStr "");
      ("role_user_prefix",              JStr "<|start_header_id|>");
      ("role_user_suffix",              JStr "<|end_header_id|>");
      ("role_assistant_message_prefix", JStr "");
      ("role_assistant_message_suffix", JStr "");
      ("role_assistant_prefix",         JStr "<|start_header_id|>");
      ("role_assistant_suffix",         JStr "<|end_header_id|>");
      ("eom_text",                      JStr "<|eot_id|>");
      ("display_role_names",            JBool true);
      ("max_tokens_param_name",         JStr "max_gen_len");
      ("max_supported_response_tokens", JNum 2048);
      ("response_chunk_element",        JStr "generation") ].

Definition Llama_3_1_8b : JValue :=
  JObj
    [ ("modelName",                     JStr "Llama-3-1-8b");
      ("modelId",                       JStr "meta.llama3-1-8b-instruct-v1:0");
      ("messages_api",                  JBool false);
      ("bos_text",                      JStr "<|begin_of_text|>");
      ("role_system_message_prefix",    JStr "");
      ("role_system_message_suffix",    JStr "");
      ("role_system_prefix",            JStr "<|start_header_id|>");
      ("role_system_suffix",            JStr "<|end_header_id|>");
      ("role_user_message_prefix",      JStr "");
      ("role_user_message_suffix",      JStr "");
      ("role_user_prefix",              JStr "<|start_header_id|>");
      ("role_user_suffix",              JStr "<|end_header_id|>");
      ("role_assistant_message_prefix", JStr "");
      ("role_assistant_message_suffix", JStr "");
      ("role_assistant_prefix",         JStr "<|start_header_id|>");
      ("role_assistant_suffix",         JStr "<|end_header_id|>");
      ("eom_text",                      JStr "<|eot_id|>");
      ("display_role_names",            JBool true);
      ("max_tokens_param_name",         JStr "max_gen_len");
      ("max_supported_response_tokens", JNum 2048);
      ("response_chunk_element",        JStr "generation") ].

Definition Llama_3_1_70b : JValue :=
  JObj
    [ ("modelName",                     JStr "Llama-3-1-70b");
      ("modelId",                       JStr "meta.llama3-1-70b-instruct-v1:0");
      ("messages_api",                  JBool false);
      ("bos_text",                      JStr "<|begin_of_text|>");
      ("role_system_message_prefix",    JStr "");
      ("role_system_message_suffix",    JStr "");
      ("role_system_prefix",            JStr "<|start_header_id|>");
      ("role_system_suffix",            JStr "<|end_header_id|>");
      ("role_user_message_prefix",      JStr "");
      ("role_user_message_suffix",      JStr "");
      ("role_user_prefix",              JStr "<|start_header_id|>");
      ("role_user_suffix",              JStr "<|end_header_id|>");
      ("role_assistant_message_prefix", JStr "");
      ("role_assistant_message_suffix", JStr "");
      ("role_assistant_prefix",         JStr "<|start_header_id|>");
      ("role_assistant_suffix",         JStr "<|end_header_id|>");
      ("eom_text",                      JStr "<|eot_id|>");
      ("display_role_names",            JBool true);
      ("max_tokens_param_name",         JStr "max_gen_len");
      ("max_supported_response_tokens", JNum 2048);
      ("response_chunk_element",        JStr "generation") ].

Definition Llama_3_1_405b : JValue :=
  JObj
    [ ("modelName",                     JStr "Llama-3-1-405b");
      ("modelId",                       JStr "meta.llama3-1-405b-instruct-v1:0");
      ("messages_api",                  JBool false);
      ("bos_text",                      JStr "<|begin_of_text|>");
      ("role_system_message_prefix",    JStr "");
      ("role_system_message_suffix",    JStr "");
      ("role_system_prefix",            JStr "<|start_header_id|>");
      ("role_system_suffix",            JStr "<|end_header_id|>");
      ("role_user_message_prefix",      JStr "");
      ("role_user_message_suffix",      JStr "");
      ("role_user_prefix",              JStr "<|start_header_id|>");
      ("role_user_suffix",              JStr "<|end_header_id|>");
      ("role_assistant_message_prefix", JStr "");
      ("role_assistant_message_suffix", JStr "");
      ("role_assistant_prefix",         JStr "<|start_header_id|>");
      ("role_assistant_suffix",         JStr "<|end_header_id|>");
      ("eom_text",                      JStr "<|eot_id|>");
      ("display_role_names",            JBool true);
      ("max_tokens_param_name",         JStr "max_gen_len");
      ("max_supported_response_tokens", JNum 2048);
      ("response_chunk_element",        JStr "generation") ].

Definition Llama_3_8b : JValue :=
  JObj
    [ ("modelName",                     JStr "Llama-3-8b");
      ("modelId",                       JStr "meta.llama3-8b-instruct-v1:0");
      ("messages_api",                  JBool false);
      ("bos_text",                      JStr "<|begin_of_text|>");
      ("role_system_message_prefix",    JStr "");
      ("role_system_message_suffix",    JStr "");
      ("role_system_prefix",            JStr "<|start_header_id|>");
      ("role_system_suffix",            JStr "<|end_header_id|>");
      ("role_user_message_prefix",      JStr "");
      ("role_user_message_suffix",      JStr "");
      ("role_user_prefix",              JStr "<|start_header_id|>");
      ("role_user_suffix",              JStr "<|end_header_id|>");
      ("role_assistant_message_prefix", JStr "");
      ("role_assistant_message_suffix", JStr "");
      ("role_assistant_prefix",         JStr "<|start_header_id|>");
      ("role_assistant_suffix",         JStr "<|end_header_id|>");
      ("eom_text",                      JStr "<|eot_id|>");
      ("display_role_names",            JBool true);
      ("max_tokens_param_name",         JStr "max_gen_len");
      ("max_supported_response_tokens", JNum 2048);
      ("response_chunk_element",        JStr "generation") ].

Definition Llama_3_70b : JValue :=
  JObj
    [ ("modelName",                     JStr "Llama-3-70b");
      ("modelId",                       JStr "meta.llama3-70b-instruct-v1:0");
      ("messages_api",                  JBool false);
      ("bos_text",                      JStr "<|begin_of_text|>");
      ("role_system_message_prefix",    JStr "");
      ("role_system_message_suffix",    JStr "");
      ("role_system_prefix",            JStr "<|start_header_id|>");
      ("role_system_suffix",            JStr "<|end_header_id|>");
      ("role_user_message_prefix",      JStr "");
      ("role_user_message_suffix",      JStr "");
      ("role_user_prefix",              JStr "<|start_header_id|>");
      ("role_user_suffix",              JStr "<|end_header_id|>");
      ("role_assistant_message_prefix", JStr "");
      ("role_assistant_message_suffix", JStr "");
      ("role_assistant_prefix",         JStr "<|start_header_id|>");
      ("role_assistant_suffix",         JStr "<|end_header_id|>");
      ("eom_text",                      JStr "<|eot_id|>");
      ("display_role_names",            JBool true);
      ("max_tokens_param_name",         JStr "max_gen_len");
      ("max_supported_response_tokens", JNum 2048);
      ("response_chunk_element",        JStr "generation") ].

Definition Mistral_7b : JValue :=
  JObj
    [ ("modelName",                     JStr "Mistral-7b");
      ("modelId",                       JStr "mistral.mistral-7b-instruct-v0:2");
      ("messages_api",                  JBool false);
      ("bos_text",                      JStr "<s>");
      ("role_system_message_prefix",    JStr "");
      ("role_system_message_suffix",    JStr "");
      ("role_system_prefix",            JStr "");
      ("role_system_suffix",            JStr "");
      ("role_user_message_prefix",      JStr "[INST]");
      ("role_user_message_suffix",      JStr "[/INST]");
      ("role_user_prefix",              JStr "");
      ("role_user_suffix",              JStr "");
      ("role_assistant_message_prefix", JStr "");
      ("role_assistant_message_suffix", JStr "");
      ("role_assistant_prefix",         JStr "");
      ("role_assistant_suffix",         JStr "");
      ("eom_text",                      JStr "</s>");
      ("display_role_names",            JBool false);
      ("max_tokens_param_name",         JStr "max_tokens");
      ("max_supported_response_tokens", JNum 8192);
      ("response_chunk_element",        JStr "outputs[0].text") ].

Definition Mixtral_8x7b : JValue :=
  JObj
    [ ("modelName",                     JStr "Mixtral-8x7b");
      ("modelId",                       JStr "mistral.mixtral-8x7b-instruct-v0:1");
      ("messages_api",                  JBool false);
      ("bos_text",                      JStr "<s>");
      ("role_system_message_prefix",    JStr "");
      ("role_system_message_suffix",    JStr "");
      ("role_system_prefix",            JStr "");
      ("role_system_suffix",            JStr "");
      ("role_user_message_prefix",      JStr "[INST]");
      ("role_user_message_suffix",      JStr "[/INST]");
      ("role_user_prefix",              JStr "");
      ("role_user_suffix",              JStr "");
      ("role_assistant_message_prefix", JStr "");
      ("role_assistant_message_suffix", JStr "");
      ("role_assistant_prefix",         JStr "");
      ("role_assistant_suffix",         JStr "");
      ("eom_text",                      JStr "</s>");
      ("display_role_names",            JBool false);
      ("max_tokens_param_name",         JStr "max_tokens");
      ("max_supported_response_tokens", JNum 4096);
      ("response_chunk_element",        JStr "outputs[0].text") ].

Definition Mistral_Large : JValue :=
  JObj
    [ ("modelName",                     JStr "Mistral-Large");
      ("modelId",                       JStr "mistral.mistral-large-2402-v1:0");
      ("messages_api",                  JBool false);
      ("bos_text",                      JStr "<s>");
      ("role_system_message_prefix",    JStr "");
      ("role_system_message_suffix",    JStr "");
      ("role_system_prefix",            JStr "");
      ("role_system_suffix",            JStr "");
      ("role_user_message_prefix",      JStr "[INST]");
      ("role_user_message_suffix",      JStr "[/INST]");
      ("role_user_prefix",              JStr "");
      ("role_user_suffix",              JStr "");
      ("role_assistant_message_prefix", JStr "");
      ("role_assistant_message_suffix", JStr "");
      ("role_assistant_prefix",         JStr "");
      ("role_assistant_suffix",         JStr "");
      ("eom_text",                      JStr "</s>");
      ("display_role_names",            JBool false);
      ("max_tokens_param_name",         JStr "max_tokens");
      ("max_supported_response_tokens", JNum 8192);
      ("response_chunk_element",        JStr "outputs[0].text") ].

Definition bedrock_models : list JValue :=
  [ Claude_3_7_Sonnet;
    Claude_3_5_Sonnet_v2;
    Claude_3_5_Sonnet;
    Claude_3_Haiku;
    Claude_3_5_Haiku;
    Llama_3_2_1b;
    Llama_3_2_3b;
    Llama_3_2_11b;
    Llama_3_2_90b;
    Llama_3_1_8b;
    Llama_3_1_70b;
    Llama_3_1_405b;
    Llama_3_8b;
    Llama_3_70b;
    Mistral_7b;
    Mixtral_8x7b;
    Mistral_Large ].

(** Property readers, named after the keys of the entries. *)
Definition modelName (d : JValue) : option string := as_string (prop "modelName" d).
Definition modelId (d : JValue) : option string := as_string (prop "modelId" d).
Definition messages_api (d : JValue) : option bool := as_bool (prop "messages_api" d).
Definition max_tokens_param_name (d : JValue) : option string :=
  as_string (prop "max_tokens_param_name" d).
Definition max_supported_response_tokens (d : JValue) : option Z :=
  as_int (prop "max_supported_response_tokens" d).
Definition response_chunk_element (d : JValue) : option string :=
  as_string (prop "response_chunk_element" d).
Definition response_nonchunk_element (d : JValue) : option string :=
  as_string (prop "response_nonchunk_element" d).

Definition model_names : list (option string) := map modelName bedrock_models.

End Registry.

(** ** The model abstraction core

    The module that resolves a model, builds the backend request and
    decodes the response ([bedrock-wrapper.js]) is not among the sources;
    the registry it reads is.  Its data model and operations are taken
    from the written specification of the core and run on the registry
    entries above. *)

Module Core.

(** *** Data model *)

(** Modelled from the spec: the roles of a chat message; the wrapper
    module that consumes them is missing. *)
Inductive Role : Type := system | user | assistant.

(** The literal role name. *)
Definition role_name (r : Role) : string :=
  match r with
  | system => "system"
  | user => "user"
  | assistant => "assistant"
  end.

Record ChatMessage : Type := mkMessage {
  role : Role;
  content : string
}.

(** Modelled from the spec: a path is an ordered sequence of access
    steps, each a field by name or an index into a sequence; the path
    reader of the wrapper module is missing. *)
Inductive Step : Type :=
| Field (name : string)
| Index (i : nat).

Definition Path : Type := list Step.

Record RoleMarkers : Type := mkMarkers {
  messagePrefix : string;
  messageSuffix : string;
  rolePrefix : string;
  roleSuffix : string
}.

Record PromptTemplate : Type := mkTemplate {
  beginOfSequenceMarker : string;
  markers : Role -> RoleMarkers;
  endOfMessageMarker : string;
  displayRoleNames : bool
}.

(** Modelled from the spec: the two calling conventions, each with the
    fields it needs, and the descriptor of a model; the wrapper module
    that reads the registry entries into them is missing. *)
Inductive Convention : Type :=
| Structured (systemAsSeparateField : bool)
| Flattened (template : PromptTemplate).

Record ModelDescriptor : Type := mkDescriptor {
  name : string;
  backendId : string;
  convention : Convention;
  tokenLimitParamName : string;
  maxSupportedResponseTokens : Z;
  streamChunkPath : Path;
  fullResponsePath : option Path;
  specialRequestFields : list (string * JValue)
}.

Definition usesStructuredMessages (d : ModelDescriptor) : bool :=
  match convention d with
  | Structured _ => true
  | Flattened _ => false
  end.

(** *** Reading a path such as [content[0].text]

    Modelled from the spec: [content[0].text] is the field [content], then
    the index [0], then the field [text]; the path reader of the wrapper
    module is missing. *)

Inductive PathMode : Type :=
| InName (acc : string)
| InIndex (n : nat) (digits : bool)
| AfterIndex.

Definition digit_of (c : ascii) : option nat :=
  let n := nat_of_ascii c in
  if andb (Nat.leb 48 n) (Nat.leb n 57) then Some (n - 48) else None.

Definition close_name (acc : string) (steps : Path) : option Path :=
  match acc with
  | EmptyString => None
  | _ => Some (steps ++ [Field acc])%list
  end.

Fixpoint parse_steps (s : string) (mode : PathMode) (steps : Path) : option Path :=
  match s with
  | EmptyString =>
      match mode with
      | InName acc => close_name acc steps
      | InIndex _ _ => None
      | AfterIndex => Some steps
      end
  | String c rest =>
      match mode with
      | InName acc =>
          if Ascii.eqb c "."%char then
            match close_name acc steps with
            | Some steps' => parse_steps rest (InName EmptyString) steps'
            | None => None
            end
          else if Ascii.eqb c "["%char then
            match close_name acc steps with
            | Some steps' => parse_steps rest (InIndex 0 false) steps'
            | None => None
            end
          else parse_steps rest (InName (acc ++ String c EmptyString)) steps
      | InIndex n digits =>
          if Ascii.eqb c "]"%char then
            if digits then parse_steps rest AfterIndex (steps ++ [Index n])%list else None
          else
            match digit_of c with
            | Some k => parse_steps rest (InIndex (10 * n + k) true) steps
            | None => None
            end
      | AfterIndex =>
          if Ascii.eqb c "."%char then parse_steps rest (InName EmptyString) steps
          else if Ascii.eqb c "["%char then parse_steps rest (InIndex 0 false) steps
          else None
      end
  end.

Definition parsePath (s : string) : option Path :=
  parse_steps s (InName EmptyString) [].

(** *** Loading a registry entry

    Modelled from the spec: the descriptor of a registry entry, field for
    field, under the property names of [bedrock-models.js]; the loading
    code of the wrapper module is missing. *)

Definition bind_opt {A B : Type} (o : option A) (f : A -> option B) : option B :=
  match o with
  | Some a => f a
  | None => None
  end.

Notation "'let?' x ':=' o 'in' k" := (bind_opt o (fun x => k))
  (at level 10, x name, o at level 100, k at level 200).

Definition load_markers (d : JValue) (r : string) : option RoleMarkers :=
  let? mp := as_string (prop ("role_" ++ r ++ "_message_prefix") d) in
  let? ms := as_string (prop ("role_" ++ r ++ "_message_suffix") d) in
  let? rp := as_string (prop ("role_" ++ r ++ "_prefix") d) in
  let? rs := as_string (prop ("role_" ++ r ++ "_suffix") d) in
  Some (mkMarkers mp ms rp rs).

Definition load_template (d : JValue) : option PromptTemplate :=
  let? bos := as_string (prop "bos_text" d) in
  let? sys := load_markers d "system" in
  let? usr := load_markers d "user" in
  let? ast := load_markers d "assistant" in
  let? eom := as_string (prop "eom_text" d) in
  let? names := as_bool (prop "display_role_names" d) in
  Some (mkTemplate bos
          (fun r => match r with system => sys | user => usr | assistant => ast end)
          eom names).

Definition load_convention (d : JValue) : option Convention :=
  let? api := Registry.messages_api d in
  if api then
    Some (Structured
            (match as_bool (prop "system_as_separate_field" d) with
             | Some b => b
             | None => false
             end))
  else
    let? t := load_template d in Some (Flattened t).

Definition load_special (d : JValue) : list (string * JValue) :=
  match prop "special_request_schema" d with
  | Some (JObj fs) => fs
  | _ => []
  end.

(** The entries of the registry that speak the flattened convention
    carry no [response_nonchunk_element]; their full-response path is
    left undefined. *)
Definition load_full_path (d : JValue) : option (option Path) :=
  match prop "response_nonchunk_element" d with
  | None => Some None
  | Some (JStr s) => let? p := parsePath s in Some (Some p)
  | Some _ => None
  end.

Definition load (d : JValue) : option ModelDescriptor :=
  let? n := Registry.modelName d in
  let? id := Registry.modelId d in
  let? conv := load_convention d in
  let? pname := Registry.max_tokens_param_name d in
  let? limit := Registry.max_supported_response_tokens d in
  let? chunk := Registry.response_chunk_element d in
  let? chunk_path := parsePath chunk in
  let? full_path := load_full_path d in
  Some (mkDescriptor n id conv pname limit chunk_path full_path (load_special d)).

(** *** Model registry: [resolve] *)

(** Modelled from the spec: the lookup is by exact, case-sensitive
    comparison of the name; the lookup of the wrapper module is missing. *)
Definition named (n : string) (d : JValue) : bool :=
  match Registry.modelName d with
  | Some m => String.eqb m n
  | None => false
  end.

(** Modelled from the spec: [resolve(name)] gives the descriptor of that
    name or nothing; the wrapper module is missing. *)
Definition resolve (n : string) : option ModelDescriptor :=
  match find (named n) Registry.bedrock_models with
  | Some d => load d
  | None => None
  end.

(** *** Request builder *)

Record GenerationParams : Type := mkParams {
  maxTokens : Z;
  temperature : Q;
  topP : Q;
  stream : bool
}.

Inductive Payload : Type :=
| Turns (systemField : option string) (turns : list ChatMessage)
| Prompt (text : string).

(** The request body: the payload of the convention, the generation
    parameters keyed by backend parameter name, and the special request
    fields merged at the top level. *)
Record RequestBody : Type := mkBody {
  payload : Payload;
  parameters : list (string * JValue);
  special : list (string * JValue)
}.

Inductive BuildError : Type := NotFound | ValidationError.

(** Modelled from the spec: numeric limits are clamped to
    [min(requested, maxSupportedResponseTokens)]; the request builder of
    the wrapper module is missing. *)
Definition clamp (d : ModelDescriptor) (requested : Z) : Z :=
  Z.min requested (maxSupportedResponseTokens d).

Definition generation_parameters (d : ModelDescriptor) (p : GenerationParams)
  : list (string * JValue) :=
  [ (tokenLimitParamName d, JNum (inject_Z (clamp d (maxTokens p))));
    ("temperature", JNum (temperature p));
    ("top_p", JNum (topP p)) ].

(** Modelled from the spec: in structured mode the first system message,
    when the descriptor asks for it, leaves the sequence for a field of
    its own; the request builder of the wrapper module is missing. *)
Fixpoint take_system (msgs : list ChatMessage) : option string * list ChatMessage :=
  match msgs with
  | [] => (None, [])
  | m :: rest =>
      match role m with
      | system => (Some (content m), rest)
      | _ => let (s, rest') := take_system rest in (s, m :: rest')
      end
  end.

Definition structured (separate : bool) (msgs : list ChatMessage) : Payload :=
  if separate then let (s, rest) := take_system msgs in Turns s rest
  else Turns None msgs.

(** Modelled from the spec: flattened-prompt mode, message by message:
    the begin-of-sequence marker before the very first message only; the
    role markers around the literal role name when role names are
    displayed; the message markers around the content.  The request
    builder of the wrapper module is missing. *)
Definition emit_message (t : PromptTemplate) (out : string) (index : nat) (m : ChatMessage)
  : string :=
  let mk := markers t (role m) in
  let out1 := if Nat.eqb index 0 then out ++ beginOfSequenceMarker t else out in
  let out2 :=
    if displayRoleNames t
    then out1 ++ rolePrefix mk ++ role_name (role m) ++ roleSuffix mk
    else out1 in
  out2 ++ messagePrefix mk ++ content m ++ messageSuffix mk.

Fixpoint flatten_from (t : PromptTemplate) (out : string) (index : nat)
  (msgs : list ChatMessage) : string :=
  match msgs with
  | [] => out
  | m :: rest => flatten_from t (emit_message t out index m) (S index) rest
  end.

(** Modelled from the spec: after the whole sequence nothing is
    appended; the request builder of the wrapper module is missing. *)
Definition flatten (t : PromptTemplate) (msgs : list ChatMessage) : string :=
  flatten_from t EmptyString 0 msgs.

(** Modelled from the spec: the request of a descriptor; an empty
    message sequence is refused.  The request builder of the wrapper
    module is missing. *)
Definition build (d : ModelDescriptor) (msgs : list ChatMessage) (p : GenerationParams)
  : result BuildError RequestBody :=
  match msgs with
  | [] => Err ValidationError
  | _ =>
      Ok (mkBody
            (match convention d with
             | Structured separate => structured separate msgs
             | Flattened t => Prompt (flatten t msgs)
             end)
            (generation_parameters d p)
            (specialRequestFields d))
  end.

(** Modelled from the spec: [buildRequest(messages, modelName, params)];
    the wrapper module is missing. *)
Definition buildRequest (msgs : list ChatMessage) (modelName : string)
  (p : GenerationParams) : result BuildError RequestBody :=
  match resolve modelName with
  | Some d => build d msgs p
  | None => Err NotFound
  end.

(** *** Response path extractor *)

Inductive ExtractError : Type := PathNotFound | IndexOutOfRange | TypeMismatch.

(** Modelled from the spec: [extract(Path, value)] steps through the
    value; a missing field, an invalid index and a value of the wrong
    kind are the three errors.  The extractor of the wrapper module is
    missing. *)
Fixpoint extract (p : Path) (v : JValue) : result ExtractError string :=
  match p with
  | [] =>
      match v with
      | JStr s => Ok s
      | _ => Err TypeMismatch
      end
  | Field k :: rest =>
      match v with
      | JObj fs =>
          match assoc k fs with
          | Some v' => extract rest v'
          | None => Err PathNotFound
          end
      | _ => Err TypeMismatch
      end
  | Index i :: rest =>
      match v with
      | JArr xs =>
          match nth_error xs i with
          | Some v' => extract rest v'
          | None => Err IndexOutOfRange
          end
      | _ => Err TypeMismatch
      end
  end.

(** *** Streaming decoder *)

Inductive DecoderState : Type := Open | Emitting | Closed.

(** Modelled from the spec: the decoder goes from [Open] through
    [Emitting] to [Closed]; on a raw event a chunk is emitted when the
    extraction succeeds and the event is skipped when it does not.  The
    streaming decoder of the wrapper module is missing. *)
Definition on_event (path : Path) (st : DecoderState) (event : JValue)
  : DecoderState * list string :=
  match st with
  | Closed => (Closed, [])
  | _ =>
      match extract path event with
      | Ok chunk => (Emitting, [chunk])
      | Err _ => (st, [])
      end
  end.

Fixpoint pull (path : Path) (st : DecoderState) (events : list JValue)
  : DecoderState * list string :=
  match events with
  | [] => (Closed, [])
  | event :: rest =>
      let (st1, out) := on_event path st event in
      let (st2, outs) := pull path st1 rest in
      (st2, (out ++ outs)%list)
  end.

(** Modelled from the spec: [decodeStream], on the events of one reply;
    the streaming decoder of the wrapper module is missing. *)
Definition decode (d : ModelDescriptor) (events : list JValue) : list string :=
  snd (pull (streamChunkPath d) Open events).

(** *** Non-streaming aggregator *)

Inductive DecodeError : Type :=
| NoFullResponsePath
| Extraction (e : ExtractError).

(** Modelled from the spec: [decodeFull] applies the full-response path
    once; the aggregator of the wrapper module is missing. *)
Definition decodeFull (d : ModelDescriptor) (raw : JValue) : result DecodeError string :=
  match fullResponsePath d with
  | None => Err NoFullResponsePath
  | Some p =>
      match extract p raw with
      | Ok s => Ok s
      | Err e => Err (Extraction e)
      end
  end.

(** *** Catalog accessor *)

(** Modelled from the spec: [listModels], the names and conventions in
    registry order; the accessor of the wrapper module is missing. *)
Definition listModels : list (string * bool) :=
  flat_map
    (fun d => match load d with
              | Some m => [(name m, usesStructuredMessages m)]
              | None => []
              end)
    Registry.bedrock_models.

(** *** The flattened prompt in closed form

    What the prompt of a message sequence is said to be: the
    begin-of-sequence marker, then one block per message. *)

Definition role_block (t : PromptTemplate) (m : ChatMessage) : string :=
  if displayRoleNames t
  then rolePrefix (markers t (role m)) ++ role_name (role m)
         ++ roleSuffix (markers t (role m))
  else EmptyString.

Definition message_block (t : PromptTemplate) (m : ChatMessage) : string :=
  role_block t m
    ++ messagePrefix (markers t (role m)) ++ content m
    ++ messageSuffix (markers t (role m)).

Fixpoint blocks (t : PromptTemplate) (msgs : list ChatMessage) : string :=
  match msgs with
  | [] => EmptyString
  | m :: rest => message_block t m ++ blocks t rest
  end.

(** The chunk an event contributes: one when the extraction succeeds,
    none when it fails. *)
Definition emitted (path : Path) (event : JValue) : list string :=
  match extract path event with
  | Ok chunk => [chunk]
  | Err _ => []
  end.

Definition succeeds (path : Path) (event : JValue) : bool :=
  match extract path event with
  | Ok _ => true
  | Err _ => false
  end.

End Core.

(** ** The HTTP layer: response object, errors and effects *)

Module Express.

(** A JavaScript string is represented by its UTF-8 encoding, one
    character of the string type per byte; strings with unpaired
    surrogates have no representation.  Searching for, and cutting at, a
    pattern of ASCII characters gives the same result on the encoding as
    on the string.

    [s.length] counts UTF-16 code units: one for a character encoded in
    one, two or three bytes, two for a character encoded in four.  The
    count is taken at the first byte of each character. *)
Definition code_units (byte : ascii) : nat :=
  let b := nat_of_ascii byte in
  if Nat.ltb b 128 then 1          (* an ASCII character *)
  else if Nat.ltb b 192 then 0     (* a continuation byte *)
  else if Nat.ltb b 240 then 1     (* the first of two or three bytes *)
  else 2.                          (* the first of four bytes: a surrogate pair *)

Fixpoint js_length (s : string) : nat :=
  match s with
  | EmptyString => 0
  | String byte rest => code_units byte + js_length rest
  end.

(** A thrown JavaScript error. *)
Record JSError : Type := mkError {
  name : string;
  message : string
}.

Definition ERR_HTTP_HEADERS_SENT : JSError :=
  mkError "Error" "Cannot set headers after they are sent to the client".

(** One message of the request body. *)
Record Message : Type := mkMessage {
  role : string;
  content : string
}.

(** [req.body] of a chat-completion request: each field may be missing;
    a field that is present has the type the protocol gives it. *)
Record Body : Type := mkBody {
  body_messages : option (list Message);
  body_model : option string;
  body_max_tokens : option Q;
  body_temperature : option Q;
  body_top_p : option Q;
  body_stream : option bool
}.

Record Request : Type := mkRequest {
  body : Body;
  authorization : option string;   (* req.headers.authorization *)
  rawHeaders : list string         (* req.rawHeaders *)
}.

(** The object handed to the wrapper. *)
Record BedrockParams : Type := mkParams {
  messages : list Message;
  model : string;
  max_tokens : Q;
  stream : bool;
  temperature : Q;
  top_p : Q
}.

Record AwsCreds : Type := mkCreds {
  region : option string;
  accessKeyId : option string;
  secretAccessKey : option string
}.

(** What [extractAWSCreds] returns: an error with its message, or the
    three credentials. *)
Record Credentials : Type := mkCredentials {
  AWS_REGION : option string;
  AWS_ACCESS_KEY_ID : option string;
  AWS_SECRET_ACCESS_KEY : option string
}.

Inductive TokenParts : Type :=
| TokenError (message : string)
| TokenOk (credentials : Credentials).

(** One run of the wrapper's asynchronous generator: the chunks it
    yields, in order, and the error it throws after them, if any. *)
Record Generation : Type := mkGeneration {
  yielded : list string;
  thrown : option JSError
}.

(** The collaborators of the handlers that are not part of the sources:
    the serialiser, the clock, the credential parser of [utils.js], the
    wrapper, the logging switch, and the time the wrapper takes.

    [timer_due creds params logging] tells when the 100 seconds of the
    timer of [server.js] are over, for the generation of that call:
    [Some i] when they are over while the handler waits for what the
    generation gives after its first [i] chunks (the next chunk, its end
    or its error), [None], or a number above the number of chunks, when
    the generation is over before them. *)
Record Environment : Type := mkEnvironment {
  JSON_stringify : JValue -> string;
  now : nat -> Z;                      (* the n-th reading of Date.now() *)
  extractAWSCreds : option string -> TokenParts;
  bedrockWrapper : AwsCreds -> BedrockParams -> bool -> Generation;
  CONSOLE_LOGGING : bool;
  timer_due : AwsCreds -> BedrockParams -> bool -> option nat
}.

Definition Headers : Type := list (string * string).

(** The response object.  [head] is the status line and the headers once
    they are rendered; [res.headersSent] reads it.  The rendered head
    goes out to the client with the first write or with the end of the
    response, not before. *)
Record Response : Type := mkResponse {
  statusCode : Z;
  headers : Headers;
  head : option (Z * Headers);
  written : list string;
  finished : bool
}.

Definition headersSent (r : Response) : bool := is_defined (head r).

(** What the handler does to its surroundings, in order. *)
Inductive Action : Type :=
| SetStatus (code : Z)
| SetHeader (k v : string)
| WriteHead (code : Z) (hs : Headers)
| WriteChunk (s : string)
| EndResponse
| Invoke (creds : AwsCreds) (params : BedrockParams) (logging : bool)
| ArmTimer (delay : Z)
| ClearTimer
| Uncaught (e : JSError).

Record World : Type := mkWorld {
  res : Response;
  ticks : nat;                   (* readings of the clock so far *)
  trace : list Action;
  models : list JValue           (* the module-level [bedrock_models] *)
}.

Definition start : World :=
  mkWorld (mkResponse 200 [] None [] false) 0 [] Registry.bedrock_models.

(** *** A state and exception monad for handler code *)

Definition M (A : Type) : Type := World -> result JSError A * World.

Definition ret {A : Type} (a : A) : M A := fun w => (Ok a, w).

Definition bind {A B : Type} (m : M A) (f : A -> M B) : M B :=
  fun w =>
    match m w with
    | (Ok a, w') => f a w'
    | (Err e, w') => (Err e, w')
    end.

Definition throw {A : Type} (e : JSError) : M A := fun w => (Err e, w).

Definition try_catch {A : Type} (m : M A) (handler : JSError -> M A) : M A :=
  fun w =>
    match m w with
    | (Ok a, w') => (Ok a, w')
    | (Err e, w') => handler e w'
    end.

Declare Scope js_scope.
Delimit Scope js_scope with js.
Bind Scope js_scope with M.

Notation "x <- m ;; k" := (bind m (fun x => k))
  (at level 61, m at next level, right associativity) : js_scope.
Notation "m ;; k" := (bind m (fun _ => k))
  (at level 61, right associativity) : js_scope.

Open Scope js_scope.

Definition update_res (f : Response -> Response) (a : Action) : M unit :=
  fun w => (Ok tt, mkWorld (f (res w)) (ticks w) (trace w ++ [a])%list (models w)).

Definition get_res : M Response := fun w => (Ok (res w), w).

Definition record (a : Action) : M unit :=
  fun w => (Ok tt, mkWorld (res w) (ticks w) (trace w ++ [a])%list (models w)).

(** *** Timers *)

(** [setTimeout(callback, delay)] and [clearTimeout(timeout)], for the one
    timer a handler has; when the timer is due is told by the
    environment, and the loop that waits runs the callback. *)
Definition setTimeout (delay : Z) : M unit := record (ArmTimer delay).

Definition clearTimeout : M unit := record ClearTimer.

(** A callback the event loop runs: what it throws reaches no handler of
    the program and is recorded as uncaught.  The run is followed beyond
    it, as in a process that does not end on an uncaught exception. *)
Definition detached (callback : M unit) : M unit :=
  fun w =>
    match callback w with
    | (Ok _, w') => (Ok tt, w')
    | (Err e, w') => record (Uncaught e) w'
    end.

(** *** Headers *)

Fixpoint lookup_header (k : string) (hs : Headers) : option string :=
  match hs with
  | [] => None
  | (k', v) :: rest => if String.eqb k k' then Some v else lookup_header k rest
  end.

Fixpoint set_header (k v : string) (hs : Headers) : Headers :=
  match hs with
  | [] => [(k, v)]
  | (k', v') :: rest =>
      if String.eqb k k' then (k, v) :: rest else (k', v') :: set_header k v rest
  end.

Definition merge_headers (new old : Headers) : Headers :=
  fold_left (fun hs kv => set_header (fst kv) (snd kv) hs) new old.

(** *** The response methods the handlers call *)

(** [res.status(code)]: assigns [statusCode]. *)
Definition res_status (code : Z) : M unit :=
  update_res
    (fun r => mkResponse code (headers r) (head r) (written r) (finished r))
    (SetStatus code).

(** [res.setHeader(k, v)]: refused once the head is rendered. *)
Definition res_setHeader (k v : string) : M unit :=
  r <- get_res ;;
  if headersSent r then throw ERR_HTTP_HEADERS_SENT
  else
    update_res
      (fun r => mkResponse (statusCode r) (set_header k v (headers r)) (head r)
                  (written r) (finished r))
      (SetHeader k v).

(** [res.writeHead(code, hs)]: renders the head with the given status. *)
Definition res_writeHead (code : Z) (hs : Headers) : M unit :=
  r <- get_res ;;
  if headersSent r then throw ERR_HTTP_HEADERS_SENT
  else
    update_res
      (fun r =>
         let hs' := merge_headers hs (headers r) in
         mkResponse code hs' (Some (code, hs')) (written r) (finished r))
      (WriteHead code hs).

(** The head a write or an end renders when none was rendered before. *)
Definition implicit_head (r : Response) : option (Z * Headers) :=
  match head r with
  | Some h => Some h
  | None => Some (statusCode r, headers r)
  end.

(** [res.write(s)]: appends to the body; after the end nothing is
    appended. *)
Definition res_write (s : string) : M unit :=
  update_res
    (fun r =>
       if finished r then r
       else mkResponse (statusCode r) (headers r) (implicit_head r)
              (written r ++ [s])%list false)
    (WriteChunk s).

(** [res.end()]. *)
Definition res_end : M unit :=
  update_res
    (fun r =>
       if finished r then r
       else mkResponse (statusCode r) (headers r) (implicit_head r) (written r) true)
    EndResponse.

(** The content type [res.send] leaves on the response: the one that is
    set, or [text/html].  The charset parameter Express adds to it is not
    modelled, nor are the length and entity-tag headers. *)
Definition sent_type (hs : Headers) : string :=
  match lookup_header "Content-Type" hs with
  | Some ty => ty
  | None => "text/html"
  end.

(** Express's [res.send(text)]: sets the content type, which is refused
    once the head is rendered, then writes the text and ends. *)
Definition res_send (text : string) : M unit :=
  r <- get_res ;;
  res_setHeader "Content-Type" (sent_type (headers r)) ;;
  res_write text ;;
  res_end.

Section WithEnvironment.

Variable env : Environment.

(** Express's [res.json(v)]. *)
Definition res_json (v : JValue) : M unit :=
  r <- get_res ;;
  (match lookup_header "Content-Type" (headers r) with
   | Some _ => ret tt
   | None => res_setHeader "Content-Type" "application/json"
   end) ;;
  res_send (JSON_stringify env v).

(** [Date.now()]. *)
Definition Date_now : M Z :=
  fun w => (Ok (now env (ticks w)),
            mkWorld (res w) (S (ticks w)) (trace w) (models w)).

(** Calling [bedrockWrapper(awsCreds, params, { logging })] returns the
    generator; nothing is thrown before it is iterated. *)
Definition call_wrapper (creds : AwsCreds) (params : BedrockParams) (logging : bool)
  : M Generation :=
  fun w => (Ok (bedrockWrapper env creds params logging),
            mkWorld (res w) (ticks w) (trace w ++ [Invoke creds params logging])%list
              (models w)).

End WithEnvironment.

(** [for await (const chunk of generation) { ... }], threading the
    variables the loop body assigns. *)
Fixpoint for_await_from {S : Type} (chunks : list string) (thrown : option JSError)
  (acc : S) (step : S -> string -> M S) : M S :=
  match chunks with
  | [] =>
      match thrown with
      | Some e => throw e
      | None => ret acc
      end
  | chunk :: rest =>
      acc' <- step acc chunk ;;
      for_await_from rest thrown acc' step
  end.

Definition for_await {S : Type} (g : Generation) (acc : S) (step : S -> string -> M S)
  : M S :=
  for_await_from (yielded g) (thrown g) acc step.

(** The same loop while a timer is armed that is due after [due] more
    chunks: the handler is suspended while it waits for the generation,
    and the callback of the timer runs in one of these waits, once. *)
Fixpoint for_await_within {S : Type} (due : option nat) (callback : M unit)
  (chunks : list string) (thrown : option JSError) (acc : S)
  (step : S -> string -> M S) : M S :=
  match due with
  | Some 0 => detached callback ;; for_await_from chunks thrown acc step
  | _ =>
      match chunks with
      | [] =>
          match thrown with
          | Some e => throw e
          | None => ret acc
          end
      | chunk :: rest =>
          acc' <- step acc chunk ;;
          for_await_within (option_map Nat.pred due) callback rest thrown acc' step
      end
  end.

(** *** JavaScript helpers *)

(** Truthiness of a string that may be undefined. *)
Definition truthy (s : option string) : bool :=
  match s with
  | Some (String _ _) => true
  | _ => false
  end.

(** [s.replace(pattern, replacement)] with a string pattern: the first
    occurrence. *)
Fixpoint replace_first (pattern replacement s : string) : string :=
  if prefix pattern s then
    replacement ++ substring (length pattern) (length s - length pattern) s
  else
    match s with
    | EmptyString => EmptyString
    | String c rest => String c (replace_first pattern replacement rest)
    end.

(** The server-sent event carrying a serialised object. *)
Definition sse (data : string) : string := "data: " ++ data ++ LF ++ LF.

(** [choices[0].delta.content] and [choices[0].message.content]. *)
Definition choice_content (part : string) (v : JValue) : option string :=
  match prop "choices" v with
  | Some choices =>
      match item 0 choices with
      | Some choice =>
          match prop part choice with
          | Some p => as_string (prop "content" p)
          | None => None
          end
      | None => None
      end
  | None => None
  end.

(** *** Vocabulary of the properties *)

Definition invocations (w : World) : list Action :=
  filter (fun a => match a with Invoke _ _ _ => true | _ => false end) (trace w).

(** An action that only adds to the body or ends it. *)
Definition writes_only (a : Action) : Prop :=
  match a with
  | WriteChunk _ | EndResponse => True
  | _ => False
  end.

(** An action that is not a call of the wrapper. *)
Definition quiet (a : Action) : Prop :=
  match a with
  | Invoke _ _ _ => False
  | _ => True
  end.

(** How a loop over a generator ends: with the error thrown after the
    last chunk, or normally. *)
Definition outcome_of {A : Type} (thrown : option JSError) (a : A) : result JSError A :=
  match thrown with
  | Some e => Err e
  | None => Ok a
  end.

(** The timer that is due after [due] chunks fires while a generation of
    [n] chunks is iterated. *)
Definition fires (due : option nat) (n : nat) : bool :=
  match due with
  | Some i => Nat.leb i n
  | None => false
  end.

End Express.

(** ** [src/api/server.js]: [POST /v1/chat/completions]

    The handler is run to its end on a wrapper that yields finitely many
    chunks.  The handler arms a timer of 100 seconds once a request is
    accepted and clears it only when a non-streaming request has its
    answer; the timer fires, if it does, while the handler waits for the
    wrapper.  A timer still armed when the handler is over fires on a
    response whose head is rendered; what its callback does then is
    [on_timeout] in such a state.  The console output is left out. *)

Module Server.

Import Express.

Section Handler.

Variable env : Environment.

(** The destructuring of [req.body] with its defaults. *)
Definition default_model : string := "claude-3-5-sonnet".

Definition destructure (b : Body) : BedrockParams :=
  mkParams
    (match body_messages b with Some ms => ms | None => [] end)
    (match body_model b with Some m => m | None => default_model end)
    (match body_max_tokens b with Some n => n | None => 800%Q end)
    (match body_stream b with Some s => s | None => false end)
    (match body_temperature b with Some t => t | None => 0.4%Q end)
    (match body_top_p b with Some p => p | None => 0.9%Q end).

Definition error_body (msg kind : string) (code : Z) : JValue :=
  JObj [("error",
         JObj [("message", JStr msg); ("type", JStr kind); ("code", JNum (inject_Z code))])].

Definition empty_messages : JValue :=
  error_body "Messages array is empty" "invalid_request_error" 400.

Definition no_token : JValue :=
  error_body "No authorization token provided" "auth_error" 401.

Definition processing_error : JValue :=
  error_body "An error occurred during processing" "internal_server_error" 500.

Definition event_stream : Headers :=
  [("Content-Type", "text/event-stream");
   ("Cache-Control", "no-cache");
   ("Connection", "keep-alive")].

(** The object of one streamed chunk; [t1] and [t2] are the two clock
    readings of its construction. *)
Definition streamResponse (t1 t2 : Z) (model : string) (chunk : string) : JValue :=
  JObj [("id", JStr ("chatcmpl-" ++ string_of_Z t1));
        ("object", JStr "chat.completion.chunk");
        ("created", JNum (inject_Z (t2 / 1000)));
        ("model", JStr model);
        ("choices",
         JArr [JObj [("index", JNum 0);
                     ("delta", JObj [("role", JStr "assistant"); ("content", JStr chunk)]);
                     ("finish_reason", JNull)]])].

(** The closing object of a stream. *)
Definition stopResponse (t1 t2 : Z) (model : string) : JValue :=
  JObj [("id", JStr ("chatcmpl-" ++ string_of_Z t1));
        ("object", JStr "chat.completion.chunk");
        ("created", JNum (inject_Z (t2 / 1000)));
        ("model", JStr model);
        ("choices",
         JArr [JObj [("index", JNum 0);
                     ("delta", JObj []);
                     ("finish_reason", JStr "stop")]])].

Definition done : string := "data: [DONE]" ++ LF ++ LF.

(** The object of the timer's callback. *)
Definition timed_out : JValue :=
  JObj [("error",
         JObj [("message", JStr "Request timed out"); ("code", JNum 504)])].

(** The callback of the timer. *)
Definition on_timeout : M unit :=
  res_status 504 ;; res_json env timed_out.

(** [messages.reduce((acc, msg) => acc + msg.content.length, 0)] *)
Definition content_length (ms : list Message) : Z :=
  fold_left (fun acc msg => (acc + Z.of_nat (js_length (content msg)))%Z) ms 0%Z.

(** The object of a complete, non-streamed reply. *)
Definition completion (t1 t2 t3 : Z) (p : BedrockParams) (completeResponse : string)
  : JValue :=
  JObj [("id", JStr ("chatcmpl-" ++ string_of_Z t1));
        ("object", JStr "chat.completion");
        ("created", JNum (inject_Z (t2 / 1000)));
        ("model", JStr (model p));
        ("system_fingerprint", JStr ("fp_" ++ string_of_Z t3));
        ("choices",
         JArr [JObj [("index", JNum 0);
                     ("message",
                      JObj [("role", JStr "assistant");
                            ("content", JStr completeResponse)]);
                     ("finish_reason", JStr "stop")]]);
        ("usage",
         JObj [("prompt_tokens", JNum (inject_Z (content_length (messages p))));
               ("completion_tokens",
                JNum (inject_Z (Z.of_nat (js_length completeResponse))));
               ("total_tokens",
                JNum (inject_Z (content_length (messages p)
                                + Z.of_nat (js_length completeResponse))))])].

(** The body of the streaming loop. *)
Definition stream_step (model : string) (_ : unit) (chunk : string) : M unit :=
  t1 <- Date_now env ;;
  t2 <- Date_now env ;;
  res_write (sse (JSON_stringify env (streamResponse t1 t2 model chunk))).

(** The body of the aggregation loop: [completeResponse += data]. *)
Definition collect (completeResponse data : string) : M string :=
  ret (completeResponse ++ data).

(** [for await] over the generation of a call of the wrapper while the
    timer is armed. *)
Definition iterate {S : Type} (awsCreds : AwsCreds) (bedrockParams : BedrockParams)
  (g : Generation) (acc : S) (step : S -> string -> M S) : M S :=
  for_await_within (timer_due env awsCreds bedrockParams (CONSOLE_LOGGING env))
    on_timeout (yielded g) (thrown g) acc step.

(** The [if (stream)] branch. *)
Definition streamed (awsCreds : AwsCreds) (bedrockParams : BedrockParams) : M unit :=
  res_writeHead 200 event_stream ;;
  g <- call_wrapper env awsCreds bedrockParams (CONSOLE_LOGGING env) ;;
  iterate awsCreds bedrockParams g tt (stream_step (model bedrockParams)) ;;
  t1 <- Date_now env ;;
  t2 <- Date_now env ;;
  res_write (sse (JSON_stringify env (stopResponse t1 t2 (model bedrockParams)))) ;;
  res_write done ;;
  res_end.

(** The [else] branch. *)
Definition unstreamed (awsCreds : AwsCreds) (bedrockParams : BedrockParams) : M unit :=
  response <- call_wrapper env awsCreds bedrockParams (CONSOLE_LOGGING env) ;;
  completeResponse <-
    iterate awsCreds bedrockParams response EmptyString collect ;;
  clearTimeout ;;
  res_setHeader "Content-Type" "application/json" ;;
  t1 <- Date_now env ;;
  t2 <- Date_now env ;;
  t3 <- Date_now env ;;
  res_json env (completion t1 t2 t3 bedrockParams completeResponse).

(** The body of the [try] block. *)
Definition try_block (req : Request) (p : BedrockParams) : M unit :=
  match messages p with
  | [] => res_status 400 ;; res_json env empty_messages
  | _ =>
      let bearerToken :=
        match authorization req with
        | Some a => Some (replace_first "Bearer " EmptyString a)
        | None => None
        end in
      if negb (truthy bearerToken) then
        res_status 401 ;; res_json env no_token
      else
        match extractAWSCreds env bearerToken with
        | TokenError msg =>
            res_status 401 ;; res_json env (error_body msg "auth_error" 401)
        | TokenOk c =>
            let awsCreds :=
              mkCreds (AWS_REGION c) (AWS_ACCESS_KEY_ID c) (AWS_SECRET_ACCESS_KEY c) in
            setTimeout 100000 ;;
            if stream p then streamed awsCreds p else unstreamed awsCreds p
        end
  end.

(** The [catch] block. *)
Definition catch_block (error : JSError) : M unit :=
  res_status 500 ;; res_json env processing_error.

Definition chat_completions (req : Request) : M unit :=
  let p := destructure (body req) in
  try_catch (try_block req p) catch_block.

(** *** Vocabulary of the properties *)

(** The request passes the checks on the messages and on the
    credentials, which are [c]. *)
Definition accepted (req : Request) (c : Credentials) : Prop :=
  messages (destructure (body req)) <> [] /\
  exists a,
    authorization req = Some a /\
    truthy (Some (replace_first "Bearer " EmptyString a)) = true /\
    extractAWSCreds env (Some (replace_first "Bearer " EmptyString a)) = TokenOk c.

Definition creds_of (c : Credentials) : AwsCreds :=
  mkCreds (AWS_REGION c) (AWS_ACCESS_KEY_ID c) (AWS_SECRET_ACCESS_KEY c).

(** The objects of the chunk events of a stream whose first clock
    reading is the [t]-th. *)
Fixpoint stream_objects (t : nat) (model : string) (chunks : list string) : list JValue :=
  match chunks with
  | [] => []
  | chunk :: rest =>
      streamResponse (now env t) (now env (S t)) model chunk
        :: stream_objects (S (S t)) model rest
  end.

Definition frame (v : JValue) : string := sse (JSON_stringify env v).

(** The world in which the branches start when the handler is run from
    [start]: the timer is armed. *)
Definition armed : World :=
  mkWorld (mkResponse 200 [] None [] false) 0 [ArmTimer 100000] Registry.bedrock_models.

(** The world after the callback of the timer has answered 504 for a
    non-streaming request. *)
Definition timed_out_world (creds : AwsCreds) (p : BedrockParams) : World :=
  mkWorld
    (mkResponse 504 [("Content-Type", "application/json")]
       (Some (504%Z, [("Content-Type", "application/json")]))
       [JSON_stringify env timed_out] true)
    0
    [ArmTimer 100000; Invoke creds p (CONSOLE_LOGGING env);
     SetStatus 504;
     SetHeader "Content-Type" "application/json";
     SetHeader "Content-Type" "application/json";
     WriteChunk (JSON_stringify env timed_out);
     EndResponse]
    Registry.bedrock_models.

(** The timer fires while the handler iterates the generation of the
    request whose credentials are [c]. *)
Definition times_out (req : Request) (c : Credentials) : bool :=
  let p := destructure (body req) in
  fires (timer_due env (creds_of c) p (CONSOLE_LOGGING env))
    (List.length (yielded (bedrockWrapper env (creds_of c) p (CONSOLE_LOGGING env)))).

End Handler.

End Server.

(** ** The serverless variant of the server: [POST /v1/chat/completions]

    The second server file of the sources, which exports the application
    instead of listening.  The console output is left out. *)

Module Serverless.

Import Express.

Section Handler.

Variable env : Environment.

Definition default_model : string := "Llama-3-8b".

Definition destructure (b : Body) : BedrockParams :=
  mkParams
    (match body_messages b with Some ms => ms | None => [] end)
    (match body_model b with Some m => m | None => default_model end)
    (match body_max_tokens b with Some n => n | None => 800%Q end)
    (match body_stream b with Some s => s | None => true end)
    (match body_temperature b with Some t => t | None => 0.1%Q end)
    (match body_top_p b with Some p => p | None => 0.9%Q end).

Definition event_stream : Headers :=
  [("Content-Type", "text/event-stream");
   ("Cache-Control", "no-cache");
   ("Connection", "keep-alive")].

(** [{choices: [{delta: {content: chunk}}]}] *)
Definition delta (chunk : string) : JValue :=
  JObj [("choices", JArr [JObj [("delta", JObj [("content", JStr chunk)])]])].

(** [{choices: [{message: {content: completeResponse}}]}] *)
Definition complete (completeResponse : string) : JValue :=
  JObj [("choices", JArr [JObj [("message", JObj [("content", JStr completeResponse)])]])].

(** [req.rawHeaders.find(item => item.startsWith("Bearer "))], then
    [bearerToken ? bearerToken.substring(7) : null]. *)
Definition bearer_token (raw : list string) : option string :=
  match find (prefix "Bearer ") raw with
  | Some b => if truthy (Some b) then Some (substring 7 (length b - 7) b) else None
  | None => None
  end.

(** The body of the streaming loop: the chunk is collected, then sent. *)
Definition stream_step (completeResponse chunk : string) : M string :=
  res_write (sse (JSON_stringify env (delta chunk))) ;;
  ret (completeResponse ++ chunk).

(** The body of the aggregation loop. *)
Definition collect (completeResponse data : string) : M string :=
  ret (completeResponse ++ data).

(** The body of the [try] block; [completeResponse] starts empty. *)
Definition try_block (p : BedrockParams) (awsCreds : AwsCreds) : M unit :=
  if stream p then
    g <- call_wrapper env awsCreds p (CONSOLE_LOGGING env) ;;
    for_await g EmptyString stream_step ;;
    res_end
  else
    response <- call_wrapper env awsCreds p (CONSOLE_LOGGING env) ;;
    completeResponse <- for_await response EmptyString collect ;;
    res_write (JSON_stringify env (complete completeResponse)) ;;
    res_end.

(** The [catch] block: both responses are guarded by [!res.headersSent]. *)
Definition catch_block (error : JSError) : M unit :=
  r <- get_res ;;
  if String.eqb (name error) "ThrottlingException" then
    if negb (headersSent r) then
      res_status 429 ;;
      res_send "Too many requests, please wait before trying again."
    else ret tt
  else
    if negb (headersSent r) then
      res_status 500 ;;
      res_send "Server error during request processing."
    else ret tt.

Definition chat_completions (req : Request) : M unit :=
  let p := destructure (body req) in
  match messages p with
  | [] => res_status 400 ;; res_send "Messages array is empty"
  | _ =>
      match extractAWSCreds env (bearer_token (rawHeaders req)) with
      | TokenError msg => res_status 401 ;; res_send msg
      | TokenOk c =>
          if orb (negb (truthy (AWS_ACCESS_KEY_ID c)))
                 (negb (truthy (AWS_SECRET_ACCESS_KEY c)))
          then res_status 401 ;; res_send "Unauthorized"
          else
            let awsCreds :=
              mkCreds (AWS_REGION c) (AWS_ACCESS_KEY_ID c) (AWS_SECRET_ACCESS_KEY c) in
            res_writeHead 200 event_stream ;;
            try_catch (try_block p awsCreds) catch_block
      end
  end.

(** *** Vocabulary of the properties *)

(** The request passes the checks on the messages and on the
    credentials, which are [c]. *)
Definition accepted (req : Request) (c : Credentials) : Prop :=
  messages (destructure (body req)) <> [] /\
  extractAWSCreds env (bearer_token (rawHeaders req)) = TokenOk c /\
  truthy (AWS_ACCESS_KEY_ID c) = true /\
  truthy (AWS_SECRET_ACCESS_KEY c) = true.

Definition creds_of (c : Credentials) : AwsCreds :=
  mkCreds (AWS_REGION c) (AWS_ACCESS_KEY_ID c) (AWS_SECRET_ACCESS_KEY c).

Definition frame (v : JValue) : string := sse (JSON_stringify env v).

(** The world in which the [try] block starts when the handler is run
    from [start]. *)
Definition head_written : World :=
  mkWorld (mkResponse 200 event_stream (Some (200%Z, event_stream)) [] false)
    0 [WriteHead 200 event_stream] Registry.bedrock_models.

End Handler.

End Serverless.

(** ** The error-handling middleware

    Both server files install the same error-handling middleware before
    their routes.  The console output is left out. *)

Module Middleware.

Import Express.

(** What the middleware reads of the error it is given: [err.code] and
    the truthiness of [err.headersSent]. *)
Record ErrorInfo : Type := mkErrorInfo {
  err_code : option string;
  err_headersSent : bool
}.

Definition is_reset (err : ErrorInfo) : bool :=
  match err_code err with
  | Some c => String.eqb c "ECONNRESET"
  | None => false
  end.

(** [(err, req, res, next) => ...]; the result tells whether [next(err)]
    was called. *)
Definition handle (err : ErrorInfo) : M bool :=
  if is_reset err then
    res_status 500 ;; res_send "Connection reset by peer" ;; ret false
  else if err_headersSent err then
    ret true
  else
    res_status 500 ;; res_send "Something broke!" ;; ret false.

End Middleware.

(** ** Vocabulary of the further properties *)

Module Reply.

Import Express.

(** A response that was answered in one piece: one content type, one
    body, ended. *)
Definition answered (code : Z) (ctype body : string) : Response :=
  mkResponse code [("Content-Type", ctype)]
    (Some (code, [("Content-Type", ctype)])) [body] true.

(** The actions of [res.status(code).json(v)] and of
    [res.status(code).send(text)] on a fresh response. *)
Definition json_actions (code : Z) (body : string) : list Action :=
  [SetStatus code;
   SetHeader "Content-Type" "application/json";
   SetHeader "Content-Type" "application/json";
   WriteChunk body;
   EndResponse].

Definition send_actions (code : Z) (text : string) : list Action :=
  [SetStatus code; SetHeader "Content-Type" "text/html"; WriteChunk text; EndResponse].

(** The pattern occurs somewhere in the string. *)
Fixpoint occurs (pattern s : string) : bool :=
  orb (prefix pattern s)
    (match s with
     | EmptyString => false
     | String _ rest => occurs pattern rest
     end).

(** The status of the rendered head. *)
Definition sent_status (r : Response) : option Z := option_map fst (head r).

(** What has gone out to the client: the rendered head leaves with the
    first write or with the end of the response. *)
Definition flushed (r : Response) : bool :=
  match written r with
  | [] => finished r
  | _ :: _ => true
  end.

(** The status the client has received, if any. *)
Definition wire_status (r : Response) : option Z :=
  if flushed r then option_map fst (head r) else None.

(** The pattern, which starts [rest], occurs nowhere earlier in
    [before ++ rest]. *)
Fixpoint first_at (pattern before rest : string) : bool :=
  match before with
  | EmptyString => true
  | String c more =>
      negb (prefix pattern (before ++ rest)) && first_at pattern more rest
  end.

(** The sum of the lengths of strings, as [.length] counts them. *)
Definition total_length (l : list string) : Z :=
  Z.of_nat (list_sum (map js_length l)).

(** A field of the [usage] object of a completion. *)
Definition usage (field : string) (v : JValue) : option JValue :=
  match prop "usage" v with
  | Some u => prop field u
  | None => None
  end.

(** The property keys of a prompt template in the registry. *)
Definition template_keys : list string :=
  [ "bos_text";
    "role_system_message_prefix"; "role_system_message_suffix";
    "role_system_prefix"; "role_system_suffix";
    "role_user_message_prefix"; "role_user_message_suffix";
    "role_user_prefix"; "role_user_suffix";
    "role_assistant_message_prefix"; "role_assistant_message_suffix";
    "role_assistant_prefix"; "role_assistant_suffix";
    "eom_text" ].

Definition defines_string (d : JValue) (k : string) : bool :=
  is_defined (as_string (prop k d)).

Section Worlds.

Variable env : Environment.

(** The world after [res.status(code).json(v)] on the fresh response. *)
Definition json_reply (code : Z) (v : JValue) : World :=
  mkWorld (answered code "application/json" (JSON_stringify env v)) 0
    (json_actions code (JSON_stringify env v)) Registry.bedrock_models.

(** The world after [res.status(code).send(text)] on the fresh response. *)
Definition text_reply (code : Z) (text : string) : World :=
  mkWorld (answered code "text/html" text) 0 (send_actions code text)
    Registry.bedrock_models.

(** The frames of the chunks of a stream of [server.js], and its closing
    frame after [n] chunks. *)
Definition server_frames (model : string) (chunks : list string) : list string :=
  map (Server.frame env) (Server.stream_objects env 0 model chunks).

Definition server_closing (model : string) (n : nat) : string :=
  Server.frame env (Server.stopResponse (now env (2 * n)) (now env (S (2 * n))) model).

(** The response of a non-streaming request of [server.js] whose timer
    fired: the callback answered 504, the catch block assigned the status
    field again. *)
Definition server_timed_out : Response :=
  mkResponse 500 [("Content-Type", "application/json")]
    (Some (504%Z, [("Content-Type", "application/json")]))
    [JSON_stringify env Server.timed_out] true.

(** The frames of the chunks of a stream of the serverless handler. *)
Definition serverless_frames (chunks : list string) : list string :=
  map (fun chunk => Serverless.frame env (Serverless.delta chunk)) chunks.

End Worlds.

(** A response whose head went out with status 200 and the event-stream
    headers [hs]; [code] is the status field as it stands. *)
Definition streaming (hs : Headers) (wr : list string) (fin : bool) (code : Z)
  : Response :=
  mkResponse code hs (Some (200%Z, hs)) wr fin.

(** The token [server.js] hands to the credential parser. *)
Definition server_token (req : Request) : option string :=
  option_map (replace_first "Bearer " EmptyString) (authorization req).

End Reply.

(** ** A concrete environment for the examples *)

Module Sample.

Import Express.

Definition quote : string := String (ascii_of_nat 34) EmptyString.

(** A serialiser for values whose strings need no escaping and whose
    numbers are integers, which is all the examples below contain. *)
Fixpoint render (v : JValue) : string :=
  match v with
  | JNull => "null"
  | JBool b => if b then "true" else "false"
  | JNum q => string_of_Z (Qnum q)
  | JStr s => quote ++ s ++ quote
  | JArr xs =>
      "[" ++
      (fix items (l : list JValue) : string :=
         match l with
         | [] => EmptyString
         | x :: rest =>
             match rest with
             | [] => render x
             | _ => render x ++ "," ++ items rest
             end
         end) xs ++ "]"
  | JObj fs =>
      "{" ++
      (fix members (l : list (string * JValue)) : string :=
         match l with
         | [] => EmptyString
         | (k, x) :: rest =>
             match rest with
             | [] => quote ++ k ++ quote ++ ":" ++ render x
             | _ => quote ++ k ++ quote ++ ":" ++ render x ++ "," ++ members rest
             end
         end) fs ++ "}"
  end.

(** A credential parser that accepts every non-empty token. *)
Definition accept_token (token : option string) : TokenParts :=
  if truthy token
  then TokenOk (mkCredentials (Some "us-east-1") token token)
  else TokenError "Invalid token".

Definition Throttling : JSError := mkError "ThrottlingException" "Rate exceeded".

(** A backend that yields the given chunks and then ends or fails, in
    less than the 100 seconds of the timer of [server.js]. *)
Definition environment (chunks : list string) (failure : option JSError) : Environment :=
  mkEnvironment render (fun n => (1700000000000 + Z.of_nat n)%Z) accept_token
    (fun _ _ _ => mkGeneration chunks failure) false (fun _ _ _ => None).

Definition hello : list Message := [mkMessage "user" "Hi"].

Definition request (ms : option (list Message)) (streaming : option bool) : Request :=
  mkRequest (mkBody ms None None None None streaming)
    (Some "Bearer token") ["Authorization"; "Bearer token"].

(** The events of the decoding scenario. *)
Definition events : list JValue :=
  [ JObj [("generation", JStr "Hel")];
    JObj [("generation", JStr "lo")];
    JObj [("meta", JStr "done")] ].

(** The descriptor the entry [Llama-3-8b] of the registry loads to. *)
Definition llama_markers : Core.RoleMarkers :=
  Core.mkMarkers EmptyString EmptyString "<|start_header_id|>" "<|end_header_id|>".

Definition llama_template : Core.PromptTemplate :=
  Core.mkTemplate "<|begin_of_text|>"
    (fun r =>
       match r with
       | Core.system => llama_markers
       | Core.user => llama_markers
       | Core.assistant => llama_markers
       end)
    "<|eot_id|>" true.

Definition llama_3_8b : Core.ModelDescriptor :=
  Core.mkDescriptor "Llama-3-8b" "meta.llama3-8b-instruct-v1:0"
    (Core.Flattened llama_template) "max_gen_len" 2048
    [Core.Field "generation"] None [].

(** The conversation of the prompt scenario. *)
Definition conversation : list Core.ChatMessage :=
  [Core.mkMessage Core.system "Be terse"; Core.mkMessage Core.user "Hi"].

End Sample.

(** ** Further sample requests and backends *)

Module Cases.

Import Express.

(** A credential parser that refuses every token. *)
Definition refusing : Environment :=
  mkEnvironment Sample.render (fun n => (1700000000000 + Z.of_nat n)%Z)
    (fun _ => TokenError "Invalid token format")
    (fun _ _ _ => mkGeneration [] None) false (fun _ _ _ => None).

(** A credential parser whose credentials lack the access key id. *)
Definition keyless : Environment :=
  mkEnvironment Sample.render (fun n => (1700000000000 + Z.of_nat n)%Z)
    (fun _ => TokenOk (mkCredentials (Some "us-east-1") None (Some "secret")))
    (fun _ _ _ => mkGeneration [] None) false (fun _ _ _ => None).

(** A request with a message and no [Authorization] header. *)
Definition anonymous : Request :=
  mkRequest (mkBody (Some Sample.hello) None None None None None) None [].

(** The credentials the sample parser reads from [Bearer token]. *)
Definition token_credentials : Credentials :=
  mkCredentials (Some "us-east-1") (Some "token") (Some "token").

(** A backend that yields the given chunks and then ends or fails,
    during which the timer of [server.js] is due after [due] chunks. *)
Definition slow (chunks : list string) (failure : option JSError) (due : nat)
  : Environment :=
  mkEnvironment Sample.render (fun n => (1700000000000 + Z.of_nat n)%Z)
    Sample.accept_token
    (fun _ _ _ => mkGeneration chunks failure) false (fun _ _ _ => Some due).

(** A message whose content is two characters of three bytes each. *)
Definition nihon : list Message :=
  [mkMessage "user"
     (String "230" (String "151" (String "165"
        (String "230" (String "156" (String "172" EmptyString))))))].

(** A request whose header carries the scheme after another character. *)
Definition shifted : Request :=
  mkRequest (mkBody (Some Sample.hello) None None None None None)
    (Some "xBearer token") [].

End Cases.

(** * Properties *)

(** ** Strings *)

Lemma append_nil_r (s : string) : s ++ EmptyString = s.
Proof.
  induction s as [|c s IH]; simpl.
  - reflexivity.
  - now rewrite IH.
Qed.

Lemma append_assoc (s1 s2 s3 : string) : (s1 ++ s2) ++ s3 = s1 ++ s2 ++ s3.
Proof.
  induction s1 as [|c s1 IH]; simpl.
  - reflexivity.
  - now rewrite IH.
Qed.

(** ** The registry *)

Example llama_3_8b_loads : Core.load Registry.Llama_3_8b = Some Sample.llama_3_8b.
Proof. reflexivity. Qed.

Lemma every_entry_loads :
  Forall (fun d => is_defined (Core.load d) = true) Registry.bedrock_models.
Proof. repeat constructor. Qed.

(** The paths of the registry read as the access steps they spell. *)
Example claude_paths :
  Core.parsePath "delta.text" = Some [Core.Field "delta"; Core.Field "text"] /\
  Core.parsePath "content[0].text"
    = Some [Core.Field "content"; Core.Index 0; Core.Field "text"] /\
  Core.parsePath "outputs[0].text"
    = Some [Core.Field "outputs"; Core.Index 0; Core.Field "text"].
Proof. repeat split. Qed.

(** C5, as stated, fails on the registry: the entry [Llama-3-2-1b] is a
    registered model, it defines the streaming selector
    [response_chunk_element], and it has no [response_nonchunk_element]
    property at all, so there is no full-response path to extract with. *)
Lemma llama_has_no_full_response_path :
  In Registry.Llama_3_2_1b Registry.bedrock_models /\
  Registry.response_chunk_element Registry.Llama_3_2_1b = Some "generation" /\
  prop "response_nonchunk_element" Registry.Llama_3_2_1b = None /\
  Registry.response_nonchunk_element Registry.Llama_3_2_1b = None.
Proof.
  split; [ simpl; tauto | ].
  repeat split.
Qed.

(** C5, amended: every entry of the registry defines the streaming
    selector [response_chunk_element]; an entry defines the full-response
    selector [response_nonchunk_element] exactly when it uses the
    messages API (the five Claude entries), and the twelve entries of
    the flattened-prompt convention define none. *)
Theorem response_selectors :
  Forall
    (fun d =>
       is_defined (Registry.response_chunk_element d) = true /\
       Some (is_defined (Registry.response_nonchunk_element d)) = Registry.messages_api d)
    Registry.bedrock_models /\
  List.length (filter (fun d => is_defined (Registry.response_nonchunk_element d))
            Registry.bedrock_models) = 5 /\
  List.length Registry.bedrock_models = 17.
Proof.
  split; [ | split; reflexivity ].
  repeat (constructor; [ split; reflexivity | ]).
  constructor.
Qed.

(** ** Registry lookup and the default model *)

Lemma names_are_defined :
  Forall (fun n : option string => n <> None) Registry.model_names.
Proof. repeat (constructor; [ discriminate | ]). constructor. Qed.

Lemma names_are_distinct : NoDup Registry.model_names.
Proof.
  unfold Registry.model_names. simpl.
  repeat (constructor; [ simpl; intuition discriminate | ]).
  constructor.
Qed.

(** C9: a request without a [model] field is given the model name
    [claude-3-5-sonnet] by the handler of [server.js]; no entry of the
    registry carries that name (the nearest, [Claude-3-5-Sonnet], differs
    in case), and the exact, case-sensitive lookup finds no entry for it. *)
Theorem default_model_is_not_registered :
  (forall ms n t p s,
      Express.model (Server.destructure (Express.mkBody ms None n t p s))
      = "claude-3-5-sonnet") /\
  Forall (fun d => Registry.modelName d <> Some "claude-3-5-sonnet")
    Registry.bedrock_models /\
  In (Some "Claude-3-5-Sonnet") Registry.model_names /\
  find (Core.named "claude-3-5-sonnet") Registry.bedrock_models = None /\
  Core.resolve "claude-3-5-sonnet" = None.
Proof.
  split; [ reflexivity | ].
  split; [ repeat (constructor; [ discriminate | ]); constructor | ].
  split; [ simpl; tauto | ].
  split; reflexivity.
Qed.

(** ** The request builder *)

Section RequestBuilder.

Import Core.

Variable d : ModelDescriptor.

Lemma token_limit_first (p : GenerationParams) :
  assoc (tokenLimitParamName d) (generation_parameters d p)
  = Some (JNum (inject_Z (clamp d (maxTokens p)))).
Proof.
  unfold generation_parameters. simpl.
  now rewrite String.eqb_refl.
Qed.

Lemma build_nonempty (msgs : list ChatMessage) (p : GenerationParams) :
  msgs <> [] ->
  exists body,
    build d msgs p = Ok body /\
    parameters body = generation_parameters d p /\
    special body = specialRequestFields d.
Proof.
  intros Hne. destruct msgs as [|m rest]; [ contradiction | ].
  eexists. split; [ reflexivity | ]. split; reflexivity.
Qed.

(** C1: when the requested [maxTokens] exceeds the descriptor's
    [maxSupportedResponseTokens], the built request carries the
    descriptor's limit under [tokenLimitParamName]; when it is at or below
    the limit, it carries the requested value unchanged. *)
Theorem token_limit_is_clamped (msgs : list ChatMessage) (p : GenerationParams) :
  msgs <> [] ->
  exists body,
    build d msgs p = Ok body /\
    (maxSupportedResponseTokens d < maxTokens p ->
     assoc (tokenLimitParamName d) (parameters body)
     = Some (JNum (inject_Z (maxSupportedResponseTokens d))))%Z /\
    (maxTokens p <= maxSupportedResponseTokens d ->
     assoc (tokenLimitParamName d) (parameters body)
     = Some (JNum (inject_Z (maxTokens p))))%Z.
Proof.
  intros Hne.
  destruct (build_nonempty p Hne) as (body & Hbuild & Hparams & _).
  exists body. split; [ exact Hbuild | ].
  rewrite Hparams, token_limit_first. unfold clamp.
  split; intros Hcmp.
  - now rewrite Z.min_r by lia.
  - now rewrite Z.min_l by lia.
Qed.

(** *** The flattened prompt *)

Variable t : PromptTemplate.

Lemma emit_later (out : string) (i : nat) (m : ChatMessage) :
  emit_message t out (S i) m = out ++ message_block t m.
Proof.
  unfold emit_message, message_block, role_block. simpl.
  destruct (displayRoleNames t); simpl.
  - now rewrite !append_assoc.
  - reflexivity.
Qed.

Lemma emit_first (m : ChatMessage) :
  emit_message t EmptyString 0 m = beginOfSequenceMarker t ++ message_block t m.
Proof.
  unfold emit_message, message_block, role_block. simpl.
  destruct (displayRoleNames t); simpl.
  - now rewrite !append_assoc.
  - reflexivity.
Qed.

Lemma flatten_later (msgs : list ChatMessage) :
  forall (out : string) (i : nat),
    flatten_from t out (S i) msgs = out ++ blocks t msgs.
Proof.
  induction msgs as [|m rest IH]; intros out i; simpl.
  - now rewrite append_nil_r.
  - now rewrite IH, emit_later, append_assoc.
Qed.

Lemma flatten_closed_form (msgs : list ChatMessage) :
  msgs <> [] ->
  flatten t msgs = beginOfSequenceMarker t ++ blocks t msgs.
Proof.
  destruct msgs as [|m rest]; [ contradiction | intros _ ].
  unfold flatten. simpl.
  now rewrite flatten_later, emit_first, append_assoc.
Qed.

Lemma blocks_app (front back : list ChatMessage) :
  blocks t (front ++ back) = blocks t front ++ blocks t back.
Proof.
  induction front as [|m front IH]; simpl.
  - reflexivity.
  - now rewrite IH, append_assoc.
Qed.

(** C2: for a descriptor of the flattened-prompt convention and a
    non-empty message sequence, the prompt is the begin-of-sequence
    marker, once and first, followed for each message in order by its
    block: the role prefix, the literal role name and the role suffix when
    role names are displayed, then the message prefix, the content and the
    message suffix.  The prompt ends with the block of the last message. *)
Theorem flattened_prompt (msgs : list ChatMessage) (p : GenerationParams) :
  convention d = Flattened t ->
  msgs <> [] ->
  build d msgs p
  = Ok (mkBody (Prompt (beginOfSequenceMarker t ++ blocks t msgs))
          (generation_parameters d p) (specialRequestFields d)) /\
  (forall m,
      message_block t m
      = (if displayRoleNames t
         then rolePrefix (markers t (role m)) ++ role_name (role m)
                ++ roleSuffix (markers t (role m))
         else EmptyString)
        ++ messagePrefix (markers t (role m)) ++ content m
        ++ messageSuffix (markers t (role m))) /\
  (forall front last,
      msgs = (front ++ [last])%list ->
      beginOfSequenceMarker t ++ blocks t msgs
      = (beginOfSequenceMarker t ++ blocks t front) ++ message_block t last).
Proof.
  intros Hconv Hne. split; [ | split ].
  - destruct msgs as [|m rest] eqn:E; [ contradiction | ].
    unfold build. rewrite Hconv, <- E.
    rewrite flatten_closed_form by (subst; discriminate).
    now subst.
  - reflexivity.
  - intros front last ->.
    rewrite blocks_app. simpl.
    now rewrite append_nil_r, append_assoc.
Qed.

End RequestBuilder.

Lemma token_limit_is_clamped_witness :
  exists body,
    Core.build Sample.llama_3_8b Sample.conversation
      (Core.mkParams 5000 0.4 0.9 true) = Ok body /\
    (2048 < 5000 ->
     assoc "max_gen_len" (Core.parameters body) = Some (JNum (inject_Z 2048)))%Z /\
    (5000 <= 2048 ->
     assoc "max_gen_len" (Core.parameters body) = Some (JNum (inject_Z 5000)))%Z.
Proof.
  apply (@token_limit_is_clamped Sample.llama_3_8b Sample.conversation
           (Core.mkParams 5000 0.4 0.9 true)).
  discriminate.
Defined.

Lemma flattened_prompt_witness :
  Core.build Sample.llama_3_8b Sample.conversation (Core.mkParams 800 0.4 0.9 false)
  = Ok (Core.mkBody
          (Core.Prompt
             ("<|begin_of_text|>"
              ++ "<|start_header_id|>system<|end_header_id|>Be terse"
              ++ "<|start_header_id|>user<|end_header_id|>Hi"))
          [("max_gen_len", JNum 800); ("temperature", JNum 0.4); ("top_p", JNum 0.9)]
          []).
Proof.
  exact (proj1 (@flattened_prompt Sample.llama_3_8b Sample.llama_template
                  Sample.conversation (Core.mkParams 800 0.4 0.9 false)
                  eq_refl ltac:(discriminate))).
Defined.

(** The scenario of the specification, through the registry: the entry
    is resolved by name and the limit of 2048 replaces the requested 5000. *)
Example llama_request :
  Core.buildRequest Sample.conversation "Llama-3-8b" (Core.mkParams 5000 0.4 0.9 true)
  = Ok (Core.mkBody
          (Core.Prompt
             "<|begin_of_text|><|start_header_id|>system<|end_header_id|>Be terse<|start_header_id|>user<|end_header_id|>Hi")
          [("max_gen_len", JNum 2048); ("temperature", JNum 0.4); ("top_p", JNum 0.9)]
          []).
Proof. reflexivity. Qed.

Example mistral_request :
  Core.buildRequest Sample.conversation "Mistral-7b" (Core.mkParams 5000 0.4 0.9 true)
  = Ok (Core.mkBody
          (Core.Prompt "<s>Be terse[INST]Hi[/INST]")
          [("max_tokens", JNum 5000); ("temperature", JNum 0.4); ("top_p", JNum 0.9)]
          []).
Proof. reflexivity. Qed.

Example unknown_model :
  Core.buildRequest Sample.conversation "gpt-4" (Core.mkParams 5000 0.4 0.9 true)
  = Err Core.NotFound.
Proof. reflexivity. Qed.

Example empty_conversation :
  Core.buildRequest [] "Llama-3-8b" (Core.mkParams 5000 0.4 0.9 true)
  = Err Core.ValidationError.
Proof. reflexivity. Qed.

(** ** The streaming decoder *)

Section StreamingDecoder.

Import Core.

Variable path : Path.

Lemma on_event_live (st : DecoderState) (event : JValue) :
  st <> Closed ->
  snd (on_event path st event) = emitted path event /\
  fst (on_event path st event) <> Closed.
Proof.
  intros Hlive. unfold on_event, emitted.
  destruct st; try contradiction;
    destruct (extract path event); simpl; split; congruence.
Qed.

Lemma pull_live (events : list JValue) :
  forall st,
    st <> Closed ->
    pull path st events = (Closed, flat_map (emitted path) events).
Proof.
  induction events as [|event rest IH]; intros st Hlive; simpl.
  - reflexivity.
  - destruct (on_event_live event Hlive) as [Hout Hst].
    destruct (on_event path st event) as [st1 out]. simpl in Hout, Hst.
    rewrite (IH st1 Hst). now subst.
Qed.

Lemma emitted_length (events : list JValue) :
  List.length (flat_map (emitted path) events)
  = List.length (filter (succeeds path) events).
Proof.
  induction events as [|event rest IH]; simpl.
  - reflexivity.
  - rewrite length_app, IH. unfold emitted, succeeds.
    destruct (extract path event); reflexivity.
Qed.

End StreamingDecoder.

(** C3: the decoder emits, in event order, exactly one chunk for each
    event on which the extraction along [streamChunkPath] succeeds, and
    nothing for an event on which it fails; such an event does not fail
    the stream, which always runs to [Closed].  On the events
    [generation: Hel], [generation: lo], [meta: done] with the path
    [generation] the chunks are [Hel] and [lo]. *)
Theorem decoder_emits_successes (d : Core.ModelDescriptor) (events : list JValue) :
  Core.decode d events = flat_map (Core.emitted (Core.streamChunkPath d)) events /\
  (forall event,
      Core.emitted (Core.streamChunkPath d) event
      = match Core.extract (Core.streamChunkPath d) event with
        | Ok chunk => [chunk]
        | Err _ => []
        end) /\
  List.length (Core.decode d events)
  = List.length (filter (Core.succeeds (Core.streamChunkPath d)) events) /\
  fst (Core.pull (Core.streamChunkPath d) Core.Open events) = Core.Closed /\
  (Core.streamChunkPath d = [Core.Field "generation"] ->
   Core.decode d Sample.events = ["Hel"; "lo"]).
Proof.
  assert (Hrun : forall evs,
             Core.pull (Core.streamChunkPath d) Core.Open evs
             = (Core.Closed, flat_map (Core.emitted (Core.streamChunkPath d)) evs)).
  { intros evs. apply pull_live. discriminate. }
  unfold Core.decode. rewrite !Hrun. cbn [fst snd].
  split; [ reflexivity | ].
  split; [ reflexivity | ].
  split; [ apply emitted_length | ].
  split; [ reflexivity | ].
  intros Hpath. rewrite Hpath. reflexivity.
Qed.

(** The scenario on the registry: [Llama-3-8b] streams under [generation]. *)
Example llama_stream :
  option_map (fun d => Core.decode d Sample.events) (Core.resolve "Llama-3-8b")
  = Some ["Hel"; "lo"].
Proof. reflexivity. Qed.

(** The three kinds of extraction failure. *)
Example extract_failures :
  Core.extract [Core.Field "generation"] (JObj [("meta", JStr "done")])
  = Err Core.PathNotFound /\
  Core.extract [Core.Field "outputs"; Core.Index 1; Core.Field "text"]
    (JObj [("outputs", JArr [JObj [("text", JStr "a")]])])
  = Err Core.IndexOutOfRange /\
  Core.extract [Core.Field "delta"; Core.Field "text"] (JObj [("delta", JStr "a")])
  = Err Core.TypeMismatch.
Proof. repeat split. Qed.

(** ** Running handler code

    One equation per response method, on a world written out in full;
    the handlers are run by rewriting with them. *)

Section Execution.

Import Express.

Variable env : Environment.

Variables (code : Z) (hs : Headers) (h : Z * Headers) (wr : list string)
  (fin : bool) (t : nat) (tr : list Action) (ms : list JValue).

Lemma run_bind {A B : Type} (m : M A) (f : A -> M B) (w : World) :
  bind m f w
  = match m w with
    | (Ok a, w') => f a w'
    | (Err e, w') => (Err e, w')
    end.
Proof. reflexivity. Qed.

Lemma run_try_catch {A : Type} (m : M A) (handler : JSError -> M A) (w : World) :
  try_catch m handler w
  = match m w with
    | (Ok a, w') => (Ok a, w')
    | (Err e, w') => handler e w'
    end.
Proof. reflexivity. Qed.

Lemma run_ret {A : Type} (a : A) (w : World) : ret a w = (Ok a, w).
Proof. reflexivity. Qed.

Lemma run_get_res (w : World) : get_res w = (Ok (res w), w).
Proof. reflexivity. Qed.

Lemma run_status (c : Z) :
  res_status c (mkWorld (mkResponse code hs None wr fin) t tr ms)
  = (Ok tt, mkWorld (mkResponse c hs None wr fin) t (tr ++ [SetStatus c])%list ms).
Proof. reflexivity. Qed.

Lemma run_status_sent (c : Z) :
  res_status c (mkWorld (mkResponse code hs (Some h) wr fin) t tr ms)
  = (Ok tt, mkWorld (mkResponse c hs (Some h) wr fin) t (tr ++ [SetStatus c])%list ms).
Proof. reflexivity. Qed.

Lemma run_setHeader (k v : string) :
  res_setHeader k v (mkWorld (mkResponse code hs None wr fin) t tr ms)
  = (Ok tt,
     mkWorld (mkResponse code (set_header k v hs) None wr fin) t
       (tr ++ [SetHeader k v])%list ms).
Proof. reflexivity. Qed.

Lemma run_setHeader_sent (k v : string) :
  res_setHeader k v (mkWorld (mkResponse code hs (Some h) wr fin) t tr ms)
  = (Err ERR_HTTP_HEADERS_SENT, mkWorld (mkResponse code hs (Some h) wr fin) t tr ms).
Proof. reflexivity. Qed.

Lemma run_writeHead (c : Z) (new : Headers) :
  res_writeHead c new (mkWorld (mkResponse code hs None wr fin) t tr ms)
  = (Ok tt,
     mkWorld
       (mkResponse c (merge_headers new hs) (Some (c, merge_headers new hs)) wr fin)
       t (tr ++ [WriteHead c new])%list ms).
Proof. reflexivity. Qed.

Lemma run_write (s : string) :
  res_write s (mkWorld (mkResponse code hs None wr false) t tr ms)
  = (Ok tt,
     mkWorld (mkResponse code hs (Some (code, hs)) (wr ++ [s]) false) t
       (tr ++ [WriteChunk s])%list ms).
Proof. reflexivity. Qed.

Lemma run_write_sent (s : string) :
  res_write s (mkWorld (mkResponse code hs (Some h) wr false) t tr ms)
  = (Ok tt,
     mkWorld (mkResponse code hs (Some h) (wr ++ [s]) false) t
       (tr ++ [WriteChunk s])%list ms).
Proof. reflexivity. Qed.

Lemma run_end :
  res_end (mkWorld (mkResponse code hs None wr false) t tr ms)
  = (Ok tt,
     mkWorld (mkResponse code hs (Some (code, hs)) wr true) t
       (tr ++ [EndResponse])%list ms).
Proof. reflexivity. Qed.

Lemma run_end_sent :
  res_end (mkWorld (mkResponse code hs (Some h) wr false) t tr ms)
  = (Ok tt,
     mkWorld (mkResponse code hs (Some h) wr true) t (tr ++ [EndResponse])%list ms).
Proof. reflexivity. Qed.

Lemma run_now :
  Date_now env (mkWorld (mkResponse code hs (Some h) wr fin) t tr ms)
  = (Ok (now env t), mkWorld (mkResponse code hs (Some h) wr fin) (S t) tr ms).
Proof. reflexivity. Qed.

Lemma run_now_unsent :
  Date_now env (mkWorld (mkResponse code hs None wr fin) t tr ms)
  = (Ok (now env t), mkWorld (mkResponse code hs None wr fin) (S t) tr ms).
Proof. reflexivity. Qed.

Lemma run_call (creds : AwsCreds) (p : BedrockParams) (logging : bool) (r : Response) :
  call_wrapper env creds p logging (mkWorld r t tr ms)
  = (Ok (bedrockWrapper env creds p logging),
     mkWorld r t (tr ++ [Invoke creds p logging])%list ms).
Proof. reflexivity. Qed.

Lemma run_setTimeout (delay : Z) (r : Response) :
  setTimeout delay (mkWorld r t tr ms)
  = (Ok tt, mkWorld r t (tr ++ [ArmTimer delay])%list ms).
Proof. reflexivity. Qed.

Lemma run_clearTimeout (r : Response) :
  clearTimeout (mkWorld r t tr ms) = (Ok tt, mkWorld r t (tr ++ [ClearTimer])%list ms).
Proof. reflexivity. Qed.

Lemma run_detached (callback : M unit) (w : World) :
  detached callback w
  = match callback w with
    | (Ok _, w') => (Ok tt, w')
    | (Err e, w') => (Ok tt, mkWorld (res w') (ticks w') (trace w' ++ [Uncaught e])%list
                               (models w'))
    end.
Proof. unfold detached. destruct (callback w) as [[a|e] w']; reflexivity. Qed.

End Execution.

Section Sending.

Import Express.

Variable env : Environment.

Variables (code : Z) (hs : Headers) (h : Z * Headers) (wr : list string)
  (fin : bool) (t : nat) (tr : list Action) (ms : list JValue).

Lemma run_send (text : string) :
  res_send text (mkWorld (mkResponse code hs None wr false) t tr ms)
  = (Ok tt,
     mkWorld
       (mkResponse code (set_header "Content-Type" (sent_type hs) hs)
          (Some (code, set_header "Content-Type" (sent_type hs) hs))
          (wr ++ [text]) true)
       t
       (tr ++ [SetHeader "Content-Type" (sent_type hs); WriteChunk text; EndResponse])%list
       ms).
Proof.
  unfold res_send. rewrite run_bind, run_get_res. cbv beta iota.
  cbn [res headers].
  rewrite run_bind, run_setHeader. cbv beta iota.
  rewrite run_bind, run_write. cbv beta iota.
  rewrite run_end_sent. now rewrite <- !app_assoc.
Qed.

Lemma run_send_sent (text : string) :
  res_send text (mkWorld (mkResponse code hs (Some h) wr fin) t tr ms)
  = (Err ERR_HTTP_HEADERS_SENT, mkWorld (mkResponse code hs (Some h) wr fin) t tr ms).
Proof. reflexivity. Qed.

End Sending.

Section Json.

Import Express.

Variable env : Environment.

Variables (code : Z) (hs : Headers) (h : Z * Headers) (wr : list string)
  (fin : bool) (t : nat) (tr : list Action) (ms : list JValue).

(** [res.json] on a response without a content type. *)
Lemma run_json (v : JValue) :
  lookup_header "Content-Type" hs = None ->
  res_json env v (mkWorld (mkResponse code hs None wr false) t tr ms)
  = (Ok tt,
     mkWorld
       (mkResponse code
          (set_header "Content-Type" "application/json"
             (set_header "Content-Type" "application/json" hs))
          (Some (code,
                 set_header "Content-Type" "application/json"
                   (set_header "Content-Type" "application/json" hs)))
          (wr ++ [JSON_stringify env v]) true)
       t
       (tr ++ [SetHeader "Content-Type" "application/json";
               SetHeader "Content-Type" "application/json";
               WriteChunk (JSON_stringify env v);
               EndResponse])%list
       ms).
Proof.
  intros Hnone. unfold res_json.
  rewrite run_bind, run_get_res. cbv beta iota. cbn [res headers].
  rewrite Hnone, run_bind, run_setHeader. cbv beta iota.
  rewrite run_send. unfold sent_type.
  assert (Hset : forall hs0 : Headers,
             lookup_header "Content-Type"
               (set_header "Content-Type" "application/json" hs0)
             = Some "application/json").
  { induction hs0 as [|[k v0] rest IH]; cbn [set_header lookup_header].
    - reflexivity.
    - destruct (String.eqb "Content-Type" k) eqn:E; cbn [lookup_header].
      + now rewrite String.eqb_refl.
      + now rewrite E. }
  rewrite Hset. now rewrite <- !app_assoc.
Qed.

(** [res.json] once the head is rendered: refused, whatever the headers. *)
Lemma run_json_sent (v : JValue) :
  res_json env v (mkWorld (mkResponse code hs (Some h) wr fin) t tr ms)
  = (Err ERR_HTTP_HEADERS_SENT, mkWorld (mkResponse code hs (Some h) wr fin) t tr ms).
Proof.
  unfold res_json. rewrite run_bind, run_get_res. cbv beta iota. cbn [res headers].
  destruct (lookup_header "Content-Type" hs).
  - rewrite run_bind, run_ret. cbv beta iota. apply run_send_sent.
  - rewrite run_bind, run_setHeader_sent. reflexivity.
Qed.

End Json.

Create Rewrite HintDb run.

#[local] Hint Rewrite
  @run_ret run_get_res run_status run_status_sent run_setHeader run_setHeader_sent
  run_writeHead run_write run_write_sent run_end run_end_sent run_send run_send_sent
  run_json_sent run_now run_now_unsent run_call run_setTimeout run_clearTimeout : run.

#[local] Hint Rewrite run_json using reflexivity : run.

(** One step of a handler: the outermost bind is exposed, the method under
    it is run by its equation. *)
Ltac run_handler :=
  repeat first
    [ rewrite run_bind
    | rewrite run_try_catch
    | progress autorewrite with run
    | progress cbv beta iota ].

(** ** The handlers *)

Section Loops.

Import Express.

Variable env : Environment.

Lemma concat_cons (chunk : string) (rest : list string) :
  String.concat EmptyString (chunk :: rest) = chunk ++ String.concat EmptyString rest.
Proof.
  destruct rest as [|next rest]; simpl.
  - now rewrite append_nil_r.
  - reflexivity.
Qed.

(** The aggregation loop touches nothing and returns the concatenation. *)
Lemma collect_loop (step : string -> string -> M string) (chunks : list string)
  (thrown : option JSError) :
  (forall acc data w, step acc data w = (Ok (acc ++ data), w)) ->
  forall acc w,
    for_await_from chunks thrown acc step w
    = (outcome_of thrown (acc ++ String.concat EmptyString chunks), w).
Proof.
  intros Hstep. induction chunks as [|chunk rest IH]; intros acc w.
  - simpl. rewrite append_nil_r. destruct thrown; reflexivity.
  - cbn [for_await_from]. unfold bind. rewrite Hstep, IH.
    now rewrite concat_cons, append_assoc.
Qed.

(** The streaming loop of [server.js]: one frame per chunk, two clock
    readings each. *)
Lemma server_stream_loop (model : string) (chunks : list string)
  (thrown : option JSError) :
  forall code hs h wr t tr ms,
    for_await_from chunks thrown tt (Server.stream_step env model)
      (mkWorld (mkResponse code hs (Some h) wr false) t tr ms)
    = (outcome_of thrown tt,
       mkWorld
         (mkResponse code hs (Some h)
            (wr ++ map (Server.frame env) (Server.stream_objects env t model chunks))
            false)
         (t + 2 * List.length chunks)
         (tr ++ map WriteChunk
                  (map (Server.frame env) (Server.stream_objects env t model chunks)))
         ms).
Proof.
  induction chunks as [|chunk rest IH]; intros code hs h wr t tr ms.
  - simpl. rewrite !app_nil_r, Nat.add_0_r. destruct thrown; reflexivity.
  - cbn [for_await_from]. unfold bind at 1.
    unfold Server.stream_step at 1.
    unfold bind, Date_now, res_write, update_res, implicit_head. cbn.
    rewrite IH. cbn.
    rewrite <- !app_assoc. cbn.
    repeat f_equal. lia.
Qed.

(** The streaming loop of the serverless handler: one frame per chunk,
    the chunks collected on the side. *)
Lemma serverless_stream_loop (chunks : list string) (thrown : option JSError) :
  forall acc code hs h wr t tr ms,
    for_await_from chunks thrown acc (Serverless.stream_step env)
      (mkWorld (mkResponse code hs (Some h) wr false) t tr ms)
    = (outcome_of thrown (acc ++ String.concat EmptyString chunks),
       mkWorld
         (mkResponse code hs (Some h)
            (wr ++ map (fun chunk => Serverless.frame env (Serverless.delta chunk)) chunks)
            false)
         t
         (tr ++ map WriteChunk
                  (map (fun chunk => Serverless.frame env (Serverless.delta chunk)) chunks))
         ms).
Proof.
  induction chunks as [|chunk rest IH]; intros acc code hs h wr t tr ms.
  - simpl. rewrite !app_nil_r, append_nil_r. destruct thrown; reflexivity.
  - cbn [for_await_from]. unfold bind at 1.
    unfold Serverless.stream_step at 1.
    rewrite concat_cons, <- append_assoc.
    unfold bind, res_write, update_res, implicit_head, ret. cbn.
    rewrite IH. cbn.
    now rewrite <- !app_assoc.
Qed.

(** The callback of the timer of [server.js] before anything is sent:
    the client is answered 504. *)
Lemma server_timeout_answers (t : nat) (tr : list Action) (ms : list JValue) :
  detached (Server.on_timeout env) (mkWorld (mkResponse 200 [] None [] false) t tr ms)
  = (Ok tt,
     mkWorld
       (mkResponse 504 [("Content-Type", "application/json")]
          (Some (504%Z, [("Content-Type", "application/json")]))
          [JSON_stringify env Server.timed_out] true)
       t
       (tr ++ [SetStatus 504;
               SetHeader "Content-Type" "application/json";
               SetHeader "Content-Type" "application/json";
               WriteChunk (JSON_stringify env Server.timed_out);
               EndResponse])%list
       ms).
Proof.
  rewrite run_detached. unfold Server.on_timeout. run_handler.
  rewrite <- !app_assoc. reflexivity.
Qed.

(** The callback once the head is rendered: it assigns the status field,
    its [res.json] is refused, and what that throws is uncaught.  Nothing
    is written. *)
Lemma server_timeout_refused (code : Z) (hs : Headers) (h : Z * Headers)
  (wr : list string) (fin : bool) (t : nat) (tr : list Action) (ms : list JValue) :
  detached (Server.on_timeout env) (mkWorld (mkResponse code hs (Some h) wr fin) t tr ms)
  = (Ok tt,
     mkWorld (mkResponse 504 hs (Some h) wr fin) t
       (tr ++ [SetStatus 504; Uncaught ERR_HTTP_HEADERS_SENT])%list ms).
Proof.
  rewrite run_detached. unfold Server.on_timeout. run_handler. cbn [res ticks trace models].
  now rewrite <- !app_assoc.
Qed.

Lemma quiet_writes (frames : list string) : Forall quiet (map WriteChunk frames).
Proof. induction frames; constructor; [ exact I | assumption ]. Qed.

Lemma invocations_quiet (r : Response) (t : nat) (ms : list JValue)
  (before extra : list Action) :
  Forall quiet extra ->
  invocations (mkWorld r t (before ++ extra)%list ms) = filter
    (fun a => match a with Invoke _ _ _ => true | _ => false end) before.
Proof.
  intros Hq. unfold invocations. cbn [trace]. rewrite filter_app.
  replace (filter _ extra) with (@nil Action); [ apply app_nil_r | ].
  induction Hq as [|a extra Ha _ IH]; [ reflexivity | ].
  destruct a; try contradiction; exact IH.
Qed.

(** The streaming loop of [server.js] under the timer: the frames are the
    same; when the timer fires, the status field is 504 afterwards. *)
Lemma server_stream_fired (model : string) (chunks : list string)
  (thrown : option JSError) (code : Z) (hs : Headers) (h : Z * Headers)
  (wr : list string) (t : nat) (tr : list Action) (ms : list JValue) :
  exists extra : list Action,
    (detached (Server.on_timeout env) ;;
     for_await_from chunks thrown tt (Server.stream_step env model))
      (mkWorld (mkResponse code hs (Some h) wr false) t tr ms)
    = (outcome_of thrown tt,
       mkWorld
         (mkResponse 504 hs (Some h)
            (wr ++ map (Server.frame env) (Server.stream_objects env t model chunks))
            false)
         (t + 2 * List.length chunks) (tr ++ extra)%list ms) /\
    Forall quiet extra.
Proof.
  rewrite run_bind, server_timeout_refused. cbv beta iota.
  rewrite server_stream_loop, <- app_assoc.
  eexists. split; [ reflexivity | ].
  apply Forall_app. split; [ repeat constructor | apply quiet_writes ].
Qed.

Lemma server_stream_within (model : string) (chunks : list string)
  (thrown : option JSError) :
  forall due code hs h wr t tr ms,
  exists extra : list Action,
    for_await_within due (Server.on_timeout env) chunks thrown tt
      (Server.stream_step env model)
      (mkWorld (mkResponse code hs (Some h) wr false) t tr ms)
    = (outcome_of thrown tt,
       mkWorld
         (mkResponse (if fires due (List.length chunks) then 504%Z else code) hs (Some h)
            (wr ++ map (Server.frame env) (Server.stream_objects env t model chunks))
            false)
         (t + 2 * List.length chunks) (tr ++ extra)%list ms) /\
    Forall quiet extra.
Proof.
  induction chunks as [|chunk rest IH]; intros due code hs h wr t tr ms.
  - destruct due as [[|i]|]; cbn [for_await_within fires Nat.leb].
    + apply server_stream_fired.
    + exists []. cbn [Server.stream_objects map List.length].
      rewrite !app_nil_r, Nat.add_0_r.
      split; [ destruct thrown; reflexivity | constructor ].
    + exists []. cbn [Server.stream_objects map List.length].
      rewrite !app_nil_r, Nat.add_0_r.
      split; [ destruct thrown; reflexivity | constructor ].
  - assert (Hstep : forall due',
               exists extra : list Action,
                 (acc' <- Server.stream_step env model tt chunk ;;
                  for_await_within due' (Server.on_timeout env) rest thrown acc'
                    (Server.stream_step env model))
                   (mkWorld (mkResponse code hs (Some h) wr false) t tr ms)
                 = (outcome_of thrown tt,
                    mkWorld
                      (mkResponse (if fires due' (List.length rest) then 504%Z else code)
                         hs (Some h)
                         (wr ++ map (Server.frame env)
                                  (Server.stream_objects env t model (chunk :: rest)))
                         false)
                      (t + 2 * List.length (chunk :: rest)) (tr ++ extra)%list ms) /\
                 Forall quiet extra).
    { intros due'. rewrite run_bind. unfold Server.stream_step at 1. run_handler.
      destruct (IH due' code hs h
                  (wr ++ [sse (JSON_stringify env
                                 (Server.streamResponse (now env t) (now env (S t))
                                    model chunk))])%list
                  (S (S t))
                  (tr ++ [WriteChunk
                            (sse (JSON_stringify env
                                    (Server.streamResponse (now env t) (now env (S t))
                                       model chunk)))])%list
                  ms) as (extra & Hrun & Hq).
      rewrite Hrun.
      exists (WriteChunk
                (sse (JSON_stringify env
                        (Server.streamResponse (now env t) (now env (S t)) model chunk)))
                :: extra).
      split; [ | constructor; [ exact I | exact Hq ] ].
      cbn [Server.stream_objects map List.length]. unfold Server.frame.
      rewrite <- !app_assoc. cbn [app].
      replace (t + 2 * S (List.length rest)) with (S (S t) + 2 * List.length rest) by lia.
      reflexivity. }
    destruct due as [[|i]|]; cbn [for_await_within option_map Nat.pred].
    + apply server_stream_fired.
    + exact (Hstep (Some i)).
    + exact (Hstep None).
Qed.

(** The aggregation loop under the timer: the world is touched by the
    callback of the timer only. *)
Lemma collect_within (callback : M unit) (step : string -> string -> M string)
  (chunks : list string) (thrown : option JSError) :
  (forall acc data w, step acc data w = (Ok (acc ++ data), w)) ->
  forall due acc w,
    for_await_within due callback chunks thrown acc step w
    = (outcome_of thrown (acc ++ String.concat EmptyString chunks),
       if fires due (List.length chunks) then snd (detached callback w) else w).
Proof.
  intros Hstep. induction chunks as [|chunk rest IH]; intros due acc w.
  - destruct due as [[|i]|]; cbn [for_await_within fires Nat.leb List.length].
    + rewrite run_bind, run_detached.
      destruct (callback w) as [[a|e] w']; cbv beta iota; cbn [snd];
        rewrite (collect_loop step) by exact Hstep; reflexivity.
    + simpl. rewrite append_nil_r. destruct thrown; reflexivity.
    + simpl. rewrite append_nil_r. destruct thrown; reflexivity.
  - destruct due as [[|i]|]; cbn [for_await_within option_map Nat.pred fires Nat.leb List.length].
    + rewrite run_bind, run_detached.
      destruct (callback w) as [[a|e] w']; cbv beta iota; cbn [snd];
        rewrite (collect_loop step) by exact Hstep; reflexivity.
    + rewrite run_bind, Hstep. cbv beta iota. rewrite IH.
      now rewrite concat_cons, append_assoc.
    + rewrite run_bind, Hstep. cbv beta iota. rewrite IH.
      now rewrite concat_cons, append_assoc.
Qed.

End Loops.

Section ServerRuns.

Import Express.

Variable env : Environment.

(** An accepted request has the timer armed and reaches one of the two
    branches. *)
Lemma server_accepted (req : Request) (c : Credentials) :
  Server.accepted env req c ->
  Server.chat_completions env req
  = try_catch
      (setTimeout 100000 ;;
       if stream (Server.destructure (body req))
       then Server.streamed env (Server.creds_of c) (Server.destructure (body req))
       else Server.unstreamed env (Server.creds_of c) (Server.destructure (body req)))
      (Server.catch_block env).
Proof.
  intros (Hmsgs & a & Hauth & Htoken & Hcreds).
  unfold Server.chat_completions, Server.try_block. cbv zeta.
  destruct (messages (Server.destructure (body req))) as [|m ms]; [ contradiction | ].
  rewrite Hauth, Htoken. cbn [negb]. rewrite Hcreds. reflexivity.
Qed.

Lemma server_armed : setTimeout 100000 start = (Ok tt, Server.armed).
Proof. reflexivity. Qed.

(** The streaming branch, run with the timer armed: the frames do not
    depend on the timer, the status field does. *)
Lemma server_streamed_try (creds : AwsCreds) (p : BedrockParams) :
  let g := bedrockWrapper env creds p (CONSOLE_LOGGING env) in
  let frames := map (Server.frame env) (Server.stream_objects env 0 (model p) (yielded g)) in
  let n := List.length (yielded g) in
  let code := if fires (timer_due env creds p (CONSOLE_LOGGING env)) n then 504%Z else 200%Z in
  exists tr : list Action,
    Server.streamed env creds p Server.armed
    = match thrown g with
      | Some e =>
          (Err e,
           mkWorld
             (mkResponse code Server.event_stream (Some (200%Z, Server.event_stream))
                frames false)
             (2 * n) tr Registry.bedrock_models)
      | None =>
          (Ok tt,
           mkWorld
             (mkResponse code Server.event_stream (Some (200%Z, Server.event_stream))
                (frames
                   ++ [Server.frame env
                         (Server.stopResponse (now env (2 * n)) (now env (S (2 * n)))
                            (model p));
                       Server.done])
                true)
             (S (S (2 * n))) tr Registry.bedrock_models)
      end /\
    forall extra r t ms,
      Forall quiet extra ->
      invocations (mkWorld r t (tr ++ extra)%list ms)
      = [Invoke creds p (CONSOLE_LOGGING env)].
Proof.
  intros g frames n code.
  unfold Server.streamed, Server.iterate, Server.armed.
  run_handler. fold g.
  destruct (server_stream_within env (model p) (yielded g) (thrown g)
              (timer_due env creds p (CONSOLE_LOGGING env)) 200
              (merge_headers Server.event_stream [])
              (200%Z, merge_headers Server.event_stream []) [] 0
              (([ArmTimer 100000] ++ [WriteHead 200 Server.event_stream])
                 ++ [Invoke creds p (CONSOLE_LOGGING env)])%list
              Registry.bedrock_models) as (extra & Hrun & Hq).
  rewrite Hrun. fold n code.
  assert (Hcalls : forall more r t ms,
             Forall quiet more ->
             invocations
               (mkWorld r t
                  (ArmTimer 100000 :: WriteHead 200 Server.event_stream
                     :: Invoke creds p (CONSOLE_LOGGING env) :: more)
                  ms)
             = [Invoke creds p (CONSOLE_LOGGING env)]).
  { intros more r t ms Hmore.
    exact (invocations_quiet r t ms
             [ArmTimer 100000; WriteHead 200 Server.event_stream;
              Invoke creds p (CONSOLE_LOGGING env)] Hmore). }
  destruct (thrown g) as [e|]; cbn [outcome_of]; run_handler;
    rewrite <- ?app_assoc; cbn [app Nat.add];
    (eexists; split; [ reflexivity | ]);
    intros more r t ms Hmore; cbn [app]; apply Hcalls;
    repeat (apply Forall_app; split); try assumption; repeat constructor.
Qed.

(** The catch block after the head is rendered: the status field is
    assigned, the send is refused. *)
Lemma server_catch_after_head (e : JSError) (code : Z) (hs : Headers)
  (h : Z * Headers) (wr : list string) (fin : bool) (t : nat) (tr : list Action)
  (ms : list JValue) :
  Server.catch_block env e (mkWorld (mkResponse code hs (Some h) wr fin) t tr ms)
  = (Err ERR_HTTP_HEADERS_SENT,
     mkWorld (mkResponse 500 hs (Some h) wr fin) t (tr ++ [SetStatus 500])%list ms).
Proof.
  unfold Server.catch_block. run_handler. reflexivity.
Qed.

(** The non-streaming branch, run with the timer armed. *)
Lemma server_unstreamed_try (creds : AwsCreds) (p : BedrockParams) :
  let g := bedrockWrapper env creds p (CONSOLE_LOGGING env) in
  let answer :=
    Server.completion (now env 0) (now env 1) (now env 2) p
      (String.concat EmptyString (yielded g)) in
  Server.unstreamed env creds p Server.armed
  = if fires (timer_due env creds p (CONSOLE_LOGGING env)) (List.length (yielded g)) then
      match thrown g with
      | Some e => (Err e, Server.timed_out_world env creds p)
      | None =>
          (Err ERR_HTTP_HEADERS_SENT,
           mkWorld (res (Server.timed_out_world env creds p)) 0
             (trace (Server.timed_out_world env creds p) ++ [ClearTimer])
             Registry.bedrock_models)
      end
    else
      match thrown g with
      | Some e =>
          (Err e,
           mkWorld (mkResponse 200 [] None [] false) 0
             [ArmTimer 100000; Invoke creds p (CONSOLE_LOGGING env)]
             Registry.bedrock_models)
      | None =>
          (Ok tt,
           mkWorld
             (mkResponse 200 [("Content-Type", "application/json")]
                (Some (200%Z, [("Content-Type", "application/json")]))
                [JSON_stringify env answer] true)
             3
             [ArmTimer 100000; Invoke creds p (CONSOLE_LOGGING env);
              ClearTimer;
              SetHeader "Content-Type" "application/json";
              SetHeader "Content-Type" "application/json";
              WriteChunk (JSON_stringify env answer);
              EndResponse]
             Registry.bedrock_models)
      end.
Proof.
  intros g answer.
  unfold Server.unstreamed, Server.iterate, Server.armed.
  run_handler. rewrite (collect_within _ Server.collect) by reflexivity. fold g.
  destruct (fires (timer_due env creds p (CONSOLE_LOGGING env)) (List.length (yielded g))).
  - rewrite server_timeout_answers. cbn [snd].
    destruct (thrown g) as [e|]; cbn [outcome_of]; run_handler; reflexivity.
  - destruct (thrown g) as [e|]; cbn [outcome_of]; run_handler; reflexivity.
Qed.

(** The two ways an accepted streaming request ends; the timer changes
    the status field only. *)
Lemma server_run_streamed (req : Request) (c : Credentials) :
  Server.accepted env req c ->
  stream (Server.destructure (body req)) = true ->
  let p := Server.destructure (body req) in
  let g := bedrockWrapper env (Server.creds_of c) p (CONSOLE_LOGGING env) in
  let n := List.length (yielded g) in
  let frames := Reply.server_frames env (model p) (yielded g) in
  let closing := Reply.server_closing env (model p) n in
  exists tr : list Action,
    Server.chat_completions env req start
    = match thrown g with
      | None =>
          (Ok tt,
           mkWorld
             (Reply.streaming Server.event_stream (frames ++ [closing; Server.done])
                true (if Server.times_out env req c then 504 else 200))
             (S (S (2 * n))) tr Registry.bedrock_models)
      | Some e =>
          (Err ERR_HTTP_HEADERS_SENT,
           mkWorld (Reply.streaming Server.event_stream frames false 500) (2 * n) tr
             Registry.bedrock_models)
      end /\
    forall r t ms,
      invocations (mkWorld r t tr ms)
      = [Invoke (Server.creds_of c) p (CONSOLE_LOGGING env)].
Proof.
  intros Hacc Hstream p g n frames closing.
  rewrite (server_accepted Hacc), Hstream. fold p.
  rewrite run_try_catch, run_bind, server_armed. cbv beta iota.
  pose proof (server_streamed_try (Server.creds_of c) p) as Htry. cbv zeta in Htry.
  destruct Htry as (tr & Hrun & Hcalls). rewrite Hrun. fold g.
  destruct (thrown g) as [e|].
  - rewrite server_catch_after_head. exists (tr ++ [SetStatus 500])%list.
    split; [ reflexivity | ].
    intros r t ms. apply Hcalls. repeat constructor.
  - exists tr. split; [ reflexivity | ].
    intros r t ms. rewrite <- (app_nil_r tr). apply Hcalls. constructor.
Qed.

(** The three ways an accepted non-streaming request ends. *)
Lemma server_run_unstreamed (req : Request) (c : Credentials) :
  Server.accepted env req c ->
  stream (Server.destructure (body req)) = false ->
  let p := Server.destructure (body req) in
  let g := bedrockWrapper env (Server.creds_of c) p (CONSOLE_LOGGING env) in
  let answer :=
    JSON_stringify env
      (Server.completion (now env 0) (now env 1) (now env 2) p
         (String.concat EmptyString (yielded g))) in
  exists tr : list Action,
    Server.chat_completions env req start
    = (if Server.times_out env req c then
         (Err ERR_HTTP_HEADERS_SENT,
          mkWorld (Reply.server_timed_out env) 0 tr Registry.bedrock_models)
       else
         match thrown g with
         | None =>
             (Ok tt,
              mkWorld (Reply.answered 200 "application/json" answer) 3 tr
                Registry.bedrock_models)
         | Some e =>
             (Ok tt,
              mkWorld
                (Reply.answered 500 "application/json"
                   (JSON_stringify env Server.processing_error))
                0 tr Registry.bedrock_models)
         end) /\
    forall r t ms,
      invocations (mkWorld r t tr ms)
      = [Invoke (Server.creds_of c) p (CONSOLE_LOGGING env)].
Proof.
  intros Hacc Hstream p g answer.
  rewrite (server_accepted Hacc), Hstream. fold p.
  rewrite run_try_catch, run_bind, server_armed. cbv beta iota.
  rewrite server_unstreamed_try. cbv zeta. fold g.
  unfold Server.times_out. fold p g.
  destruct (fires (timer_due env (Server.creds_of c) p (CONSOLE_LOGGING env))
              (List.length (yielded g))).
  - destruct (thrown g) as [e|]; unfold Server.timed_out_world; cbn [res trace app];
      rewrite server_catch_after_head; (eexists; split; [ reflexivity | ]);
      intros r t ms; reflexivity.
  - destruct (thrown g) as [e|].
    + unfold Server.catch_block. run_handler.
      eexists. split; [ reflexivity | ]. intros r t ms. reflexivity.
    + eexists. split; [ reflexivity | ]. intros r t ms. reflexivity.
Qed.

End ServerRuns.

Section ServerlessRuns.

Import Express.

Variable env : Environment.

(** An accepted request has the head written, then enters the [try]. *)
Lemma serverless_accepted (req : Request) (c : Credentials) :
  Serverless.accepted env req c ->
  Serverless.chat_completions env req
  = (res_writeHead 200 Serverless.event_stream ;;
     try_catch
       (Serverless.try_block env (Serverless.destructure (body req))
          (Serverless.creds_of c))
       (Serverless.catch_block)).
Proof.
  intros (Hmsgs & Hcreds & Hkey & Hsecret).
  unfold Serverless.chat_completions. cbv zeta.
  destruct (messages (Serverless.destructure (body req))) as [|m ms];
    [ contradiction | ].
  rewrite Hcreds, Hkey, Hsecret. reflexivity.
Qed.

Lemma serverless_head :
  res_writeHead 200 Serverless.event_stream start = (Ok tt, Serverless.head_written).
Proof. reflexivity. Qed.

(** The [try] block, run after the head is written. *)
Lemma serverless_try (creds : AwsCreds) (p : BedrockParams) :
  let g := bedrockWrapper env creds p (CONSOLE_LOGGING env) in
  let frames :=
    map (fun chunk => Serverless.frame env (Serverless.delta chunk)) (yielded g) in
  let answer :=
    JSON_stringify env (Serverless.complete (String.concat EmptyString (yielded g))) in
  let called :=
    [WriteHead 200 Serverless.event_stream; Invoke creds p (CONSOLE_LOGGING env)] in
  let sent (wr : list string) (fin : bool) :=
    mkResponse 200 Serverless.event_stream (Some (200%Z, Serverless.event_stream))
      wr fin in
  Serverless.try_block env p creds Serverless.head_written
  = if stream p then
      match thrown g with
      | Some e =>
          (Err e,
           mkWorld (sent frames false) 0 (called ++ map WriteChunk frames)
             Registry.bedrock_models)
      | None =>
          (Ok tt,
           mkWorld (sent frames true) 0
             (called ++ map WriteChunk frames ++ [EndResponse])
             Registry.bedrock_models)
      end
    else
      match thrown g with
      | Some e => (Err e, mkWorld (sent [] false) 0 called Registry.bedrock_models)
      | None =>
          (Ok tt,
           mkWorld (sent [answer] true) 0
             (called ++ [WriteChunk answer; EndResponse])
             Registry.bedrock_models)
      end.
Proof.
  intros g frames answer called sent.
  unfold Serverless.try_block, for_await, Serverless.head_written.
  destruct (stream p).
  - run_handler. rewrite serverless_stream_loop. fold g.
    destruct (thrown g) as [e|]; cbn [outcome_of]; run_handler.
    + reflexivity.
    + subst called. rewrite <- !app_assoc. reflexivity.
  - run_handler. rewrite (collect_loop Serverless.collect) by reflexivity. fold g.
    destruct (thrown g) as [e|]; cbn [outcome_of]; run_handler; reflexivity.
Qed.

(** Once the head is rendered both guards of the catch block are false:
    the block changes nothing and returns. *)
Lemma serverless_catch_guarded (e : JSError) (w : World) :
  headersSent (res w) = true ->
  Serverless.catch_block e w = (Ok tt, w).
Proof.
  intros Hsent. unfold Serverless.catch_block.
  rewrite run_bind, run_get_res. cbv beta iota.
  rewrite Hsent. cbn [negb].
  destruct (String.eqb (Express.name e) "ThrottlingException"); reflexivity.
Qed.

End ServerlessRuns.

(** ** Empty or missing messages *)

Section Claims.

Import Express.

Variable env : Environment.

Lemma no_messages (b : Body) :
  body_messages b = None \/ body_messages b = Some [] ->
  messages (Server.destructure b) = [] /\ messages (Serverless.destructure b) = [].
Proof.
  intros [H|H]; unfold Server.destructure, Serverless.destructure;
    rewrite H; split; reflexivity.
Qed.

(** C7: a request whose [messages] field is missing or is the empty
    array is answered with status 400 and a body saying that the messages
    array is empty, by both handlers; the handler returns normally, the
    response is ended, and the wrapper is never invoked. *)
Theorem empty_messages_are_rejected (req : Request) :
  body_messages (body req) = None \/ body_messages (body req) = Some [] ->
  Server.chat_completions env req start
  = (Ok tt,
     mkWorld
       (mkResponse 400 [("Content-Type", "application/json")]
          (Some (400%Z, [("Content-Type", "application/json")]))
          [JSON_stringify env Server.empty_messages] true)
       0
       [SetStatus 400;
        SetHeader "Content-Type" "application/json";
        SetHeader "Content-Type" "application/json";
        WriteChunk (JSON_stringify env Server.empty_messages);
        EndResponse]
       Registry.bedrock_models) /\
  option_map (prop "message") (prop "error" Server.empty_messages)
  = Some (Some (JStr "Messages array is empty")) /\
  invocations (snd (Server.chat_completions env req start)) = [] /\
  Serverless.chat_completions env req start
  = (Ok tt,
     mkWorld
       (mkResponse 400 [("Content-Type", "text/html")]
          (Some (400%Z, [("Content-Type", "text/html")]))
          ["Messages array is empty"] true)
       0
       [SetStatus 400;
        SetHeader "Content-Type" "text/html";
        WriteChunk "Messages array is empty";
        EndResponse]
       Registry.bedrock_models) /\
  invocations (snd (Serverless.chat_completions env req start)) = [].
Proof.
  intros Hnone. destruct (no_messages _ Hnone) as [Hserver Hserverless].
  assert (Hrun1 : Server.chat_completions env req start
                  = (Ok tt,
                     mkWorld
                       (mkResponse 400 [("Content-Type", "application/json")]
                          (Some (400%Z, [("Content-Type", "application/json")]))
                          [JSON_stringify env Server.empty_messages] true)
                       0
                       [SetStatus 400;
                        SetHeader "Content-Type" "application/json";
                        SetHeader "Content-Type" "application/json";
                        WriteChunk (JSON_stringify env Server.empty_messages);
                        EndResponse]
                       Registry.bedrock_models)).
  { unfold Server.chat_completions, Server.try_block. cbv zeta.
    rewrite Hserver. unfold start. run_handler. reflexivity. }
  assert (Hrun2 : Serverless.chat_completions env req start
                  = (Ok tt,
                     mkWorld
                       (mkResponse 400 [("Content-Type", "text/html")]
                          (Some (400%Z, [("Content-Type", "text/html")]))
                          ["Messages array is empty"] true)
                       0
                       [SetStatus 400;
                        SetHeader "Content-Type" "text/html";
                        WriteChunk "Messages array is empty";
                        EndResponse]
                       Registry.bedrock_models)).
  { unfold Serverless.chat_completions. cbv zeta.
    rewrite Hserverless. unfold start. run_handler. reflexivity. }
  rewrite Hrun1, Hrun2. repeat split.
Qed.

End Claims.

Lemma empty_messages_are_rejected_witness :
  fst (Server.chat_completions (Sample.environment ["Hel"; "lo"] None)
         (Sample.request None (Some true)) Express.start) = Ok tt /\
  Express.written
    (Express.res
       (snd (Serverless.chat_completions (Sample.environment ["Hel"; "lo"] None)
               (Sample.request (Some []) None) Express.start)))
  = ["Messages array is empty"].
Proof.
  split.
  - exact (f_equal fst
             (proj1 (@empty_messages_are_rejected (Sample.environment ["Hel"; "lo"] None)
                       (Sample.request None (Some true)) (or_introl eq_refl)))).
  - exact (f_equal (fun r => Express.written (Express.res (snd r)))
             (proj1 (proj2 (proj2 (proj2
                (@empty_messages_are_rejected (Sample.environment ["Hel"; "lo"] None)
                   (Sample.request (Some []) None) (or_intror eq_refl))))))).
Defined.

(** ** Streaming and aggregation in [server.js] *)

Section Streaming.

Import Express.

Variable env : Environment.

Lemma stream_objects_carry_chunks (model : string) (chunks : list string) :
  forall t,
    map (choice_content "delta") (Server.stream_objects env t model chunks)
    = map Some chunks.
Proof.
  induction chunks as [|chunk rest IH]; intros t; simpl.
  - reflexivity.
  - now rewrite IH.
Qed.

Lemma stream_objects_length (model : string) (chunks : list string) :
  forall t, List.length (Server.stream_objects env t model chunks) = List.length chunks.
Proof.
  induction chunks as [|chunk rest IH]; intros t; simpl.
  - reflexivity.
  - now rewrite IH.
Qed.

(** The text of a frame. *)
Lemma frame_text (v : JValue) :
  Server.frame env v
  = "data: " ++ JSON_stringify env v ++ String "010" (String "010" EmptyString).
Proof. reflexivity. Qed.

Lemma done_text :
  Server.done = "data: [DONE]" ++ String "010" (String "010" EmptyString).
Proof. reflexivity. Qed.

(** C4, amended: when the wrapper yields a finite sequence of chunks and
    ends before the 100-second timer of the handler fires, the streaming
    handler of [server.js] writes one frame per chunk, in yield order,
    each the text [data: ], the serialised object whose
    [choices[0].delta.content] is that chunk, and two line feeds (followed
    by the closing frame, which carries no content, and the [DONE] frame);
    and the non-streaming handler, given the same chunks in that time,
    returns and answers 200 with one object whose
    [choices[0].message.content] is the concatenation of the chunks. *)
Theorem streamed_chunks_concatenate_to_the_answer (streaming plain : Request)
  (c1 c2 : Credentials) (chunks : list string) :
  Server.accepted env streaming c1 ->
  Server.accepted env plain c2 ->
  stream (Server.destructure (body streaming)) = true ->
  stream (Server.destructure (body plain)) = false ->
  bedrockWrapper env (Server.creds_of c1) (Server.destructure (body streaming))
    (CONSOLE_LOGGING env) = mkGeneration chunks None ->
  bedrockWrapper env (Server.creds_of c2) (Server.destructure (body plain))
    (CONSOLE_LOGGING env) = mkGeneration chunks None ->
  Server.times_out env streaming c1 = false ->
  Server.times_out env plain c2 = false ->
  let name := model (Server.destructure (body streaming)) in
  let objects := Server.stream_objects env 0 name chunks in
  let n := List.length chunks in
  let closing := Server.stopResponse (now env (2 * n)) (now env (S (2 * n))) name in
  let answer :=
    Server.completion (now env 0) (now env 1) (now env 2)
      (Server.destructure (body plain)) (String.concat EmptyString chunks) in
  let event (object : JValue) : string :=
    "data: " ++ JSON_stringify env object ++ String "010" (String "010" EmptyString) in
  let last : string := "data: [DONE]" ++ String "010" (String "010" EmptyString) in
  let sent := Server.chat_completions env streaming start in
  let answered := Server.chat_completions env plain start in
  fst sent = Ok tt /\
  written (res (snd sent)) = (map event objects ++ [event closing; last])%list /\
  finished (res (snd sent)) = true /\
  Reply.wire_status (res (snd sent)) = Some 200%Z /\
  List.length objects = List.length chunks /\
  map (choice_content "delta") objects = map Some chunks /\
  choice_content "delta" closing = None /\
  fst answered = Ok tt /\
  res (snd answered)
  = Reply.answered 200 "application/json" (JSON_stringify env answer) /\
  choice_content "message" answer = Some (String.concat EmptyString chunks).
Proof.
  intros Hacc1 Hacc2 Hstream Hplain Hgen1 Hgen2 Htime1 Htime name objects n closing
    answer event last sent answered.
  pose proof (server_run_streamed Hacc1 Hstream) as Hsent. cbv zeta in Hsent.
  destruct Hsent as (tr1 & Hsent & _).
  pose proof (server_run_unstreamed Hacc2 Hplain) as Hans. cbv zeta in Hans.
  destruct Hans as (tr2 & Hans & _).
  rewrite Hgen1 in Hsent. rewrite Hgen2, Htime in Hans. cbn [thrown yielded] in Hsent, Hans.
  subst sent answered. rewrite Hsent, Hans. cbn [fst snd res].
  split; [ reflexivity | ].
  split.
  { unfold Reply.streaming, Reply.server_frames, Reply.server_closing.
    cbn [written]. reflexivity. }
  split; [ reflexivity | ].
  split.
  { unfold Reply.wire_status, Reply.flushed, Reply.streaming. cbn [written finished head].
    destruct (_ ++ _)%list; reflexivity. }
  split; [ apply stream_objects_length | ].
  split; [ apply stream_objects_carry_chunks | ].
  repeat split.
Qed.

(** ** A stream that fails after some chunks *)


(** ** The status of the serverless handler *)

(** C10, amended: in the serverless handler the head, with status 200
    and the event-stream headers, is rendered by [res.writeHead] before
    the wrapper is invoked, whether the request streams or not.  For every
    accepted request, whatever the wrapper yields or throws:
    [res.headersSent] is true when the catch block runs, so the block does
    nothing (its 429 and 500 responses are not reached); the handler
    returns; after the head and the invocation the handler only writes to
    the body or ends it.  The rendered head leaves with the first write or
    with the end of the response: the client receives status 200 when the
    wrapper ends normally and when a stream fails after at least one
    chunk, and receives nothing, no status either, when the wrapper of a
    non-streaming request throws or a stream fails before its first
    chunk. *)
Theorem serverless_status_is_200_or_unsent (req : Request) (c : Credentials) :
  Serverless.accepted env req c ->
  let p := Serverless.destructure (body req) in
  let g := bedrockWrapper env (Serverless.creds_of c) p (CONSOLE_LOGGING env) in
  let final := Serverless.chat_completions env req start in
  res_writeHead 200 Serverless.event_stream start = (Ok tt, Serverless.head_written) /\
  (forall e w,
      Serverless.try_block env p (Serverless.creds_of c) Serverless.head_written
      = (Err e, w) ->
      headersSent (res w) = true /\ Serverless.catch_block e w = (Ok tt, w)) /\
  fst final = Ok tt /\
  head (res (snd final)) = Some (200%Z, Serverless.event_stream) /\
  statusCode (res (snd final)) = 200%Z /\
  (exists rest,
      trace (snd final)
      = WriteHead 200 Serverless.event_stream
          :: Invoke (Serverless.creds_of c) p (CONSOLE_LOGGING env) :: rest /\
      Forall writes_only rest) /\
  Reply.wire_status (res (snd final))
  = match thrown g with
    | None => Some 200%Z
    | Some _ =>
        if stream p
        then match yielded g with
             | [] => None
             | _ :: _ => Some 200%Z
             end
        else None
    end.
Proof.
  intros Hacc p g final.
  assert (Hwrites : forall frames : list string, Forall writes_only (map WriteChunk frames)).
  { intros frames. induction frames; constructor; [ exact I | assumption ]. }
  split; [ reflexivity | ].
  split.
  - intros e w Htry. rewrite serverless_try in Htry. cbv zeta in Htry.
    assert (Hsent : headersSent (res w) = true).
    { destruct (stream p);
        destruct (thrown (bedrockWrapper env (Serverless.creds_of c) p (CONSOLE_LOGGING env)));
        inversion Htry; reflexivity. }
    split; [ exact Hsent | now apply serverless_catch_guarded ].
  - subst final. rewrite (serverless_accepted Hacc). fold p.
    rewrite run_bind, serverless_head. cbv beta iota.
    rewrite run_try_catch, serverless_try. cbv zeta. fold g.
    destruct (stream p); destruct (thrown g);
      try rewrite serverless_catch_guarded by reflexivity;
      cbn [fst snd res head statusCode trace app];
      (split; [ reflexivity | split; [ reflexivity | split; [ reflexivity | ] ] ]);
      (split; [ eexists; (split; [ reflexivity | ]) | ]).
    + apply Hwrites.
    + unfold Reply.wire_status, Reply.flushed. cbn [written finished head].
      destruct (yielded g); reflexivity.
    + apply Forall_app. split; [ apply Hwrites | repeat constructor ].
    + unfold Reply.wire_status, Reply.flushed. cbn [written finished head].
      destruct (map _ (yielded g)); reflexivity.
    + constructor.
    + reflexivity.
    + repeat constructor.
    + reflexivity.
Qed.

End Streaming.

(** ** The properties on the sample backend *)

Lemma sample_accepted_by_server (chunks : list string) (failure : option Express.JSError)
  (streaming : option bool) :
  Server.accepted (Sample.environment chunks failure)
    (Sample.request (Some Sample.hello) streaming)
    (Express.mkCredentials (Some "us-east-1") (Some "token") (Some "token")).
Proof.
  split; [ discriminate | ].
  exists "Bearer token". repeat split.
Defined.

Lemma sample_accepted_by_serverless (chunks : list string)
  (failure : option Express.JSError) (streaming : option bool) :
  Serverless.accepted (Sample.environment chunks failure)
    (Sample.request (Some Sample.hello) streaming)
    (Express.mkCredentials (Some "us-east-1") (Some "token") (Some "token")).
Proof.
  split; [ discriminate | ]. repeat split.
Defined.

Lemma nihon_accepted_by_server (chunks : list string) (failure : option Express.JSError)
  (streaming : option bool) :
  Server.accepted (Sample.environment chunks failure)
    (Sample.request (Some Cases.nihon) streaming)
    (Express.mkCredentials (Some "us-east-1") (Some "token") (Some "token")).
Proof.
  split; [ discriminate | ].
  exists "Bearer token". repeat split.
Defined.

Lemma slow_accepted_by_server (chunks : list string) (failure : option Express.JSError)
  (due : nat) (streaming : option bool) :
  Server.accepted (Cases.slow chunks failure due)
    (Sample.request (Some Sample.hello) streaming)
    (Express.mkCredentials (Some "us-east-1") (Some "token") (Some "token")).
Proof.
  split; [ discriminate | ].
  exists "Bearer token". repeat split.
Defined.

Lemma streamed_chunks_concatenate_to_the_answer_witness :
  Express.written
    (Express.res
       (snd (Server.chat_completions (Sample.environment ["Hel"; "lo"] None)
               (Sample.request (Some Sample.hello) (Some true)) Express.start)))
  = ["data: "
       ++ Sample.render
            (Server.streamResponse 1700000000000 1700000000001 "claude-3-5-sonnet" "Hel")
       ++ String "010" (String "010" EmptyString);
     "data: "
       ++ Sample.render
            (Server.streamResponse 1700000000002 1700000000003 "claude-3-5-sonnet" "lo")
       ++ String "010" (String "010" EmptyString);
     "data: "
       ++ Sample.render
            (Server.stopResponse 1700000000004 1700000000005 "claude-3-5-sonnet")
       ++ String "010" (String "010" EmptyString);
     "data: [DONE]" ++ String "010" (String "010" EmptyString)] /\
  Express.res
    (snd (Server.chat_completions (Sample.environment ["Hel"; "lo"] None)
            (Sample.request (Some Sample.hello) None) Express.start))
  = Reply.answered 200 "application/json"
      (Sample.render
         (Server.completion 1700000000000 1700000000001 1700000000002
            (Express.mkParams Sample.hello "claude-3-5-sonnet" 800 false 0.4 0.9)
            "Hello")).
Proof.
  pose proof
    (@streamed_chunks_concatenate_to_the_answer (Sample.environment ["Hel"; "lo"] None)
       (Sample.request (Some Sample.hello) (Some true))
       (Sample.request (Some Sample.hello) None)
       _ _ ["Hel"; "lo"]
       (sample_accepted_by_server _ _ _) (sample_accepted_by_server _ _ _)
       eq_refl eq_refl eq_refl eq_refl eq_refl eq_refl) as H.
  split;
    [ exact (proj1 (proj2 H))
    | exact (proj1 (proj2 (proj2 (proj2 (proj2 (proj2 (proj2 (proj2 (proj2 H))))))))) ].
Defined.

(** C4, as stated, fails: the wrapper yields [Hel] and [lo] and ends, but
    only after the 100 seconds of the timer.  The non-streaming request is
    then answered 504 by the callback of the timer, with an object that
    has no [choices], and the handler is rejected when it sets the content
    type of the answer it has aggregated; the stream of the same chunks,
    when they come in time, carries both. *)
Lemma timed_out_answer_has_no_content :
  fst (Server.chat_completions (Cases.slow ["Hel"; "lo"] None 0)
         (Sample.request (Some Sample.hello) None) Express.start)
  = Err Express.ERR_HTTP_HEADERS_SENT /\
  Express.res
    (snd (Server.chat_completions (Cases.slow ["Hel"; "lo"] None 0)
            (Sample.request (Some Sample.hello) None) Express.start))
  = Express.mkResponse 500 [("Content-Type", "application/json")]
      (Some (504%Z, [("Content-Type", "application/json")]))
      [Sample.render Server.timed_out] true /\
  Sample.render Server.timed_out
  = "{" ++ Sample.quote ++ "error" ++ Sample.quote ++ ":{"
      ++ Sample.quote ++ "message" ++ Sample.quote ++ ":"
      ++ Sample.quote ++ "Request timed out" ++ Sample.quote ++ ","
      ++ Sample.quote ++ "code" ++ Sample.quote ++ ":504}}" /\
  Express.choice_content "message" Server.timed_out = None /\
  map (Express.choice_content "delta")
    (Server.stream_objects (Sample.environment ["Hel"; "lo"] None) 0
       "claude-3-5-sonnet" ["Hel"; "lo"])
  = [Some "Hel"; Some "lo"] /\
  Express.written
    (Express.res
       (snd (Server.chat_completions (Sample.environment ["Hel"; "lo"] None)
               (Sample.request (Some Sample.hello) (Some true)) Express.start)))
  = (map (fun object =>
            ("data: " ++ Sample.render object
               ++ String "010" (String "010" EmptyString))%string)
       (Server.stream_objects (Sample.environment ["Hel"; "lo"] None) 0
          "claude-3-5-sonnet" ["Hel"; "lo"])
     ++ [("data: "
            ++ Sample.render
                 (Server.stopResponse 1700000000004 1700000000005 "claude-3-5-sonnet")
            ++ String "010" (String "010" EmptyString))%string;
         ("data: [DONE]" ++ String "010" (String "010" EmptyString))%string])%list.
Proof. repeat split. Qed.



Lemma serverless_status_is_200_or_unsent_witness :
  Express.head
    (Express.res
       (snd (Serverless.chat_completions
               (Sample.environment ["Hel"] (Some Sample.Throttling))
               (Sample.request (Some Sample.hello) (Some true)) Express.start)))
  = Some (200%Z, Serverless.event_stream) /\
  Reply.wire_status
    (Express.res
       (snd (Serverless.chat_completions
               (Sample.environment ["Hel"] (Some Sample.Throttling))
               (Sample.request (Some Sample.hello) (Some true)) Express.start)))
  = Some 200%Z.
Proof.
  pose proof
    (@serverless_status_is_200_or_unsent
       (Sample.environment ["Hel"] (Some Sample.Throttling))
       (Sample.request (Some Sample.hello) (Some true)) _
       (sample_accepted_by_serverless _ _ _)) as H.
  split;
    [ exact (proj1 (proj2 (proj2 (proj2 H))))
    | exact (proj2 (proj2 (proj2 (proj2 (proj2 (proj2 H)))))) ].
Defined.

(** C10, as stated, fails: the wrapper of a non-streaming request yields
    [Hel] and then throws.  The head is rendered with status 200 and
    [res.headersSent] is true, but the handler returns without a write and
    without ending the response, so the head never leaves: the client has
    received no status. *)
Lemma failed_answer_sends_no_status :
  Serverless.chat_completions (Sample.environment ["Hel"] (Some Sample.Throttling))
    (Sample.request (Some Sample.hello) (Some false)) Express.start
  = (Ok tt,
     Express.mkWorld
       (Express.mkResponse 200 Serverless.event_stream
          (Some (200%Z, Serverless.event_stream)) [] false)
       0
       [Express.WriteHead 200 Serverless.event_stream;
        Express.Invoke
          (Express.mkCreds (Some "us-east-1") (Some "token") (Some "token"))
          (Express.mkParams Sample.hello "Llama-3-8b" 800 false 0.1 0.9) false]
       Registry.bedrock_models) /\
  Express.headersSent
    (Express.res
       (snd (Serverless.chat_completions
               (Sample.environment ["Hel"] (Some Sample.Throttling))
               (Sample.request (Some Sample.hello) (Some false)) Express.start)))
  = true /\
  Reply.flushed
    (Express.res
       (snd (Serverless.chat_completions
               (Sample.environment ["Hel"] (Some Sample.Throttling))
               (Sample.request (Some Sample.hello) (Some false)) Express.start)))
  = false /\
  Reply.wire_status
    (Express.res
       (snd (Serverless.chat_completions
               (Sample.environment ["Hel"] (Some Sample.Throttling))
               (Sample.request (Some Sample.hello) (Some false)) Express.start)))
  = None.
Proof. repeat split. Qed.

(** * Further properties of the sources *)

(** ** More on strings *)

Lemma substring_all (s : string) : substring 0 (String.length s) s = s.
Proof.
  induction s as [|c s IH]; simpl.
  - reflexivity.
  - now rewrite IH.
Qed.

Lemma prefix_split (p : string) :
  forall s,
    prefix p s = true ->
    s = p ++ substring (String.length p) (String.length s - String.length p) s.
Proof.
  induction p as [|a p IH]; intros s Hp.
  - cbn [String.length append]. now rewrite Nat.sub_0_r, substring_all.
  - destruct s as [|b s]; [ discriminate | ].
    cbn [prefix] in Hp. destruct (ascii_dec a b) as [->|]; [ | discriminate ].
    cbn [String.length append Nat.sub substring]. f_equal. now apply IH.
Qed.

Lemma substring_after (p s : string) :
  substring (String.length p) (String.length (p ++ s) - String.length p) (p ++ s) = s.
Proof.
  induction p as [|a p IH].
  - cbn [String.length append]. now rewrite Nat.sub_0_r, substring_all.
  - cbn [String.length append Nat.sub substring]. exact IH.
Qed.

Lemma prefix_append (p s : string) : prefix p (p ++ s) = true.
Proof.
  induction p as [|a p IH]; simpl.
  - now destruct s.
  - destruct (ascii_dec a a); [ exact IH | contradiction ].
Qed.

Lemma length_append (s1 s2 : string) :
  String.length (s1 ++ s2) = String.length s1 + String.length s2.
Proof.
  induction s1 as [|c s1 IH]; simpl.
  - reflexivity.
  - now rewrite IH.
Qed.

(** [.length] adds up over concatenation. *)
Lemma js_length_append (s1 s2 : string) :
  Express.js_length (s1 ++ s2) = Express.js_length s1 + Express.js_length s2.
Proof.
  induction s1 as [|c s1 IH]; cbn [append Express.js_length].
  - reflexivity.
  - rewrite IH. apply Nat.add_assoc.
Qed.

Lemma length_concat_chunks (chunks : list string) :
  Z.of_nat (Express.js_length (String.concat EmptyString chunks))
  = Reply.total_length chunks.
Proof.
  unfold Reply.total_length. f_equal.
  induction chunks as [|chunk rest IH].
  - reflexivity.
  - rewrite concat_cons, js_length_append, IH. reflexivity.
Qed.

(** [s.replace(p, r)] when [s] starts with [p], and when [p] occurs
    nowhere in [s]. *)
Lemma replace_first_prefix (p r s : string) :
  Express.replace_first p r (p ++ s) = r ++ s.
Proof.
  assert (Hunfold : forall x,
             Express.replace_first p r x
             = if prefix p x
               then r ++ substring (String.length p) (String.length x - String.length p) x
               else match x with
                    | EmptyString => EmptyString
                    | String c rest => String c (Express.replace_first p r rest)
                    end).
  { intros x. destruct x; reflexivity. }
  now rewrite Hunfold, prefix_append, substring_after.
Qed.

Lemma replace_first_absent (p r : string) :
  forall s, Reply.occurs p s = false -> Express.replace_first p r s = s.
Proof.
  induction s as [|c s IH]; intros Hocc; cbn [Reply.occurs] in Hocc;
    apply orb_false_iff in Hocc; destruct Hocc as [Hp Hrest];
    cbn [Express.replace_first]; rewrite Hp.
  - reflexivity.
  - now rewrite IH.
Qed.

(** [s.replace(p, r)] when the first occurrence of [p] in [s] is after
    [before]. *)
Lemma replace_first_at (p r after : string) :
  forall before,
    Reply.first_at p before (p ++ after) = true ->
    Express.replace_first p r (before ++ p ++ after) = before ++ r ++ after.
Proof.
  induction before as [|c before IH]; intros Hfirst.
  - exact (replace_first_prefix p r after).
  - cbn [Reply.first_at] in Hfirst. apply andb_true_iff in Hfirst.
    destruct Hfirst as [Hhere Hlater]. apply negb_true_iff in Hhere.
    cbn [append] in Hhere |- *. cbn [Express.replace_first]. rewrite Hhere.
    now rewrite IH.
Qed.

(** The token is empty exactly for the empty header and for the bare
    scheme. *)
Lemma empty_token (a : string) :
  Express.truthy (Some (Express.replace_first "Bearer " EmptyString a)) = false
  <-> a = EmptyString \/ a = "Bearer ".
Proof.
  split.
  - intros Hfalse. destruct (prefix "Bearer " a) eqn:Hp.
    + right. rewrite (prefix_split _ _ Hp) in Hfalse |- *.
      rewrite replace_first_prefix in Hfalse. cbn [append] in Hfalse.
      destruct (substring _ _ a); [ reflexivity | discriminate ].
    + left. destruct a as [|c rest]; [ reflexivity | ].
      cbn [Express.replace_first] in Hfalse. rewrite Hp in Hfalse. discriminate.
  - intros [->| ->]; reflexivity.
Qed.

(** ** Every path of the handler of [server.js] *)

Section ServerPaths.

Import Express.

Variable env : Environment.

Variable req : Request.

Let p : BedrockParams := Server.destructure (body req).

Let token : option string := Reply.server_token req.

Lemma reply_run (code : Z) (v : JValue) :
  try_catch (res_status code ;; res_json env v) (Server.catch_block env) start
  = (Ok tt, Reply.json_reply env code v).
Proof. unfold start. run_handler. reflexivity. Qed.

Lemma server_run_no_messages :
  messages p = [] ->
  Server.chat_completions env req start = (Ok tt, Reply.json_reply env 400 Server.empty_messages).
Proof.
  intros Hnone. unfold Server.chat_completions, Server.try_block. cbv zeta.
  fold p. rewrite Hnone. apply reply_run.
Qed.

Lemma server_run_no_token :
  messages p <> [] -> truthy token = false ->
  Server.chat_completions env req start = (Ok tt, Reply.json_reply env 401 Server.no_token).
Proof.
  intros Hmsgs Htoken. unfold Server.chat_completions, Server.try_block. cbv zeta.
  fold p. destruct (messages p) as [|m ms]; [ contradiction | ].
  unfold token, Reply.server_token in Htoken.
  destruct (authorization req) as [a|]; cbn [option_map] in Htoken;
    rewrite Htoken; apply reply_run.
Qed.

Lemma server_run_token_error (msg : string) :
  messages p <> [] -> truthy token = true ->
  extractAWSCreds env token = TokenError msg ->
  Server.chat_completions env req start
  = (Ok tt, Reply.json_reply env 401 (Server.error_body msg "auth_error" 401)).
Proof.
  intros Hmsgs Htoken Hcreds. unfold Server.chat_completions, Server.try_block.
  cbv zeta. fold p. destruct (messages p) as [|m ms]; [ contradiction | ].
  unfold token, Reply.server_token in Htoken, Hcreds.
  destruct (authorization req) as [a|]; cbn [option_map] in Htoken, Hcreds;
    [ | discriminate ].
  rewrite Htoken. cbn [negb]. rewrite Hcreds. apply reply_run.
Qed.

Lemma server_token_ok (c : Credentials) :
  messages p <> [] -> truthy token = true ->
  extractAWSCreds env token = TokenOk c ->
  Server.accepted env req c.
Proof.
  intros Hmsgs Htoken Hcreds. split; [ exact Hmsgs | ].
  unfold token, Reply.server_token in Htoken, Hcreds.
  destruct (authorization req) as [a|]; cbn [option_map] in Htoken, Hcreds;
    [ | discriminate ].
  exists a. repeat split; assumption.
Qed.

Lemma server_accepted_token (c : Credentials) :
  Server.accepted env req c ->
  messages p <> [] /\ truthy token = true /\ extractAWSCreds env token = TokenOk c.
Proof.
  intros (Hmsgs & a & Hauth & Htoken & Hcreds).
  unfold token, Reply.server_token. rewrite Hauth. cbn [option_map]. repeat split; assumption.
Qed.

(** The paths of the handler, one of which every request takes. *)
Lemma server_paths :
  (messages p = [] /\
   Server.chat_completions env req start
   = (Ok tt, Reply.json_reply env 400 Server.empty_messages)) \/
  (messages p <> [] /\ truthy token = false /\
   Server.chat_completions env req start
   = (Ok tt, Reply.json_reply env 401 Server.no_token)) \/
  (exists msg,
      messages p <> [] /\ truthy token = true /\
      extractAWSCreds env token = TokenError msg /\
      Server.chat_completions env req start
      = (Ok tt, Reply.json_reply env 401 (Server.error_body msg "auth_error" 401))) \/
  (exists c, Server.accepted env req c).
Proof.
  destruct (messages p) as [|m ms] eqn:Hmsgs.
  - left. split; [ reflexivity | now apply server_run_no_messages ].
  - assert (Hne : messages p <> []) by (rewrite Hmsgs; discriminate).
    rewrite <- Hmsgs.
    destruct (truthy token) eqn:Htoken.
    + destruct (extractAWSCreds env token) as [msg|c] eqn:Hcreds.
      * right. right. left. exists msg.
        repeat split; try assumption. now apply server_run_token_error.
      * right. right. right. exists c. now apply server_token_ok.
    + right. left. repeat split; try assumption. now apply server_run_no_token.
Qed.

(** Whoever is refused is not accepted. *)
Lemma server_refused (c : Credentials) :
  Server.accepted env req c ->
  messages p <> [] /\ truthy token = true /\
  forall msg, extractAWSCreds env token <> TokenError msg.
Proof.
  intros Hacc. destruct (server_accepted_token Hacc) as (Hmsgs & Htoken & Hcreds).
  repeat split; try assumption. intros msg. rewrite Hcreds. discriminate.
Qed.

End ServerPaths.

(** ** Authentication in [server.js] *)

Section ServerProperties.

Import Express.

Variable env : Environment.

Variable req : Request.

Let p : BedrockParams := Server.destructure (body req).

Lemma invocations_skip_writes (r : Response) (t : nat) (ms : list JValue)
  (before after : list Action) (frames : list string) :
  invocations (mkWorld r t (before ++ map WriteChunk frames ++ after) ms)
  = invocations (mkWorld r t (before ++ after) ms).
Proof.
  unfold invocations. cbn [trace]. rewrite !filter_app. f_equal.
  replace (filter _ (map WriteChunk frames)) with (@nil Action); [ reflexivity | ].
  induction frames as [|frame rest IH]; [ reflexivity | exact IH ].
Qed.

(** X1: a request with messages whose [Authorization] header is missing,
    empty or the bare scheme [Bearer ] is answered 401 with the message
    that no token was provided; the credential parser and the wrapper are
    not reached. *)
Theorem server_requires_a_token :
  messages p <> [] ->
  authorization req = None \/ authorization req = Some EmptyString
  \/ authorization req = Some "Bearer " ->
  let r := Server.chat_completions env req start in
  fst r = Ok tt /\
  res (snd r)
  = Reply.answered 401 "application/json" (JSON_stringify env Server.no_token) /\
  option_map (prop "message") (prop "error" Server.no_token)
  = Some (Some (JStr "No authorization token provided")) /\
  invocations (snd r) = [].
Proof.
  intros Hmsgs Hauth r. subst r.
  rewrite (@server_run_no_token env req Hmsgs).
  - repeat split.
  - unfold Reply.server_token.
    destruct Hauth as [H|[H|H]]; rewrite H; reflexivity.
Qed.

(** X2: a request with messages and a non-empty token that the
    credential parser refuses is answered 401 with the parser's own
    message; the wrapper is not invoked. *)
Theorem server_reports_the_parser_error (a msg : string) :
  messages p <> [] ->
  authorization req = Some a ->
  a <> EmptyString -> a <> "Bearer " ->
  extractAWSCreds env (Some (replace_first "Bearer " EmptyString a)) = TokenError msg ->
  let r := Server.chat_completions env req start in
  fst r = Ok tt /\
  res (snd r)
  = Reply.answered 401 "application/json"
      (JSON_stringify env (Server.error_body msg "auth_error" 401)) /\
  option_map (prop "message") (prop "error" (Server.error_body msg "auth_error" 401))
  = Some (Some (JStr msg)) /\
  invocations (snd r) = [].
Proof.
  intros Hmsgs Hauth Hne1 Hne2 Hcreds r. subst r.
  rewrite (@server_run_token_error env req msg Hmsgs).
  - repeat split.
  - unfold Reply.server_token. rewrite Hauth. cbn [option_map].
    destruct (truthy (Some (replace_first "Bearer " EmptyString a))) eqn:E;
      [ reflexivity | ].
    apply empty_token in E. tauto.
  - unfold Reply.server_token. now rewrite Hauth.
Qed.

(** An accepted request invokes the wrapper once, whatever follows. *)
Lemma server_accepted_invokes (c : Credentials) :
  Server.accepted env req c ->
  invocations (snd (Server.chat_completions env req start))
  = [Invoke (Server.creds_of c) p (CONSOLE_LOGGING env)].
Proof.
  intros Hacc. destruct (stream p) eqn:Hstream.
  - pose proof (server_run_streamed Hacc Hstream) as Hrun. cbv zeta in Hrun.
    destruct Hrun as (tr & Hrun & Hcalls). rewrite Hrun.
    destruct (thrown _); apply Hcalls.
  - pose proof (server_run_unstreamed Hacc Hstream) as Hrun. cbv zeta in Hrun.
    destruct Hrun as (tr & Hrun & Hcalls). rewrite Hrun.
    destruct (Server.times_out env req c); [ | destruct (thrown _) ]; apply Hcalls.
Qed.

(** The credential parser decides on the token, which is the header
    after its replacement. *)
Lemma server_decides_on_the_token (a token : string) :
  messages p <> [] ->
  authorization req = Some a ->
  replace_first "Bearer " EmptyString a = token ->
  token <> EmptyString ->
  (forall msg,
      extractAWSCreds env (Some token) = TokenError msg ->
      Server.chat_completions env req start
      = (Ok tt, Reply.json_reply env 401 (Server.error_body msg "auth_error" 401))) /\
  (forall c,
      extractAWSCreds env (Some token) = TokenOk c ->
      invocations (snd (Server.chat_completions env req start))
      = [Invoke (Server.creds_of c) p (CONSOLE_LOGGING env)]).
Proof.
  intros Hmsgs Hauth Htoken Hne.
  assert (Hserver : Reply.server_token req = Some token).
  { unfold Reply.server_token. rewrite Hauth. cbn [option_map]. now rewrite Htoken. }
  assert (Htruthy : truthy (Some token) = true).
  { destruct token; [ contradiction | reflexivity ]. }
  split.
  - intros msg Hcreds. apply (@server_run_token_error env req msg Hmsgs);
      rewrite Hserver; assumption.
  - intros c Hcreds. apply server_accepted_invokes.
    apply (@server_token_ok env req c Hmsgs); rewrite Hserver; assumption.
Qed.

(** X3: the token the credential parser is given is the header with its
    first [Bearer ] removed, wherever in the header it stands, and the
    whole header when [Bearer ] does not occur in it.  The parser decides
    on that token: its refusal is answered 401 with its message, and the
    wrapper is invoked with the credentials it reads from it. *)
Theorem server_token_of_the_header :
  messages p <> [] ->
  let r := Server.chat_completions env req start in
  (forall before after,
      authorization req = Some (before ++ "Bearer " ++ after) ->
      Reply.first_at "Bearer " before ("Bearer " ++ after) = true ->
      before ++ after <> EmptyString ->
      (forall msg,
          extractAWSCreds env (Some (before ++ after)) = TokenError msg ->
          res (snd r)
          = Reply.answered 401 "application/json"
              (JSON_stringify env (Server.error_body msg "auth_error" 401))) /\
      (forall c,
          extractAWSCreds env (Some (before ++ after)) = TokenOk c ->
          invocations (snd r) = [Invoke (Server.creds_of c) p (CONSOLE_LOGGING env)])) /\
  (forall a,
      authorization req = Some a ->
      Reply.occurs "Bearer " a = false ->
      a <> EmptyString ->
      (forall msg,
          extractAWSCreds env (Some a) = TokenError msg ->
          res (snd r)
          = Reply.answered 401 "application/json"
              (JSON_stringify env (Server.error_body msg "auth_error" 401))) /\
      (forall c,
          extractAWSCreds env (Some a) = TokenOk c ->
          invocations (snd r) = [Invoke (Server.creds_of c) p (CONSOLE_LOGGING env)])).
Proof.
  intros Hmsgs r. subst r. split.
  - intros before after Hauth Hfirst Hne.
    destruct (@server_decides_on_the_token (before ++ "Bearer " ++ after)
                (before ++ after) Hmsgs Hauth) as [Herror Hok].
    + rewrite (replace_first_at "Bearer " EmptyString after before Hfirst). reflexivity.
    + exact Hne.
    + split; [ | exact Hok ].
      intros msg Hcreds. now rewrite (Herror msg Hcreds).
  - intros a Hauth Hocc Hne.
    destruct (@server_decides_on_the_token a a Hmsgs Hauth) as [Herror Hok].
    + now apply replace_first_absent.
    + exact Hne.
    + split; [ | exact Hok ].
      intros msg Hcreds. now rewrite (Herror msg Hcreds).
Qed.

(** ** The backend call in [server.js] *)

(** X4: when the wrapper of a non-streaming request throws, after any
    number of chunks and before the 100-second timer fires, the client is
    answered 500 with the fixed error object; the chunks already yielded
    and the error are not sent, and the handler returns. *)
Theorem server_unstreamed_failure_is_a_500 (c : Credentials) (chunks : list string)
  (e : JSError) :
  Server.accepted env req c ->
  stream p = false ->
  bedrockWrapper env (Server.creds_of c) p (CONSOLE_LOGGING env)
  = mkGeneration chunks (Some e) ->
  Server.times_out env req c = false ->
  let r := Server.chat_completions env req start in
  fst r = Ok tt /\
  res (snd r)
  = Reply.answered 500 "application/json" (JSON_stringify env Server.processing_error) /\
  Reply.wire_status (res (snd r)) = Some 500%Z /\
  option_map (prop "message") (prop "error" Server.processing_error)
  = Some (Some (JStr "An error occurred during processing")).
Proof.
  intros Hacc Hstream Hgen Htime r. subst r.
  pose proof (server_run_unstreamed Hacc Hstream) as Hrun. cbv zeta in Hrun.
  destruct Hrun as (tr & Hrun & _). fold p in Hrun.
  rewrite Htime, Hgen in Hrun. cbn [thrown] in Hrun. rewrite Hrun. repeat split.
Qed.


(** X6: the wrapper is invoked at most once per request: exactly once,
    with the credentials of the token and the destructured parameters of
    the body, when the request is accepted, whatever then happens; never
    when it is refused. *)
Theorem server_invokes_the_wrapper_once :
  let w := snd (Server.chat_completions env req start) in
  (forall c,
      Server.accepted env req c ->
      invocations w = [Invoke (Server.creds_of c) p (CONSOLE_LOGGING env)]) /\
  ((forall c, ~ Server.accepted env req c) -> invocations w = []).
Proof.
  intros w. subst w. split.
  - intros c Hacc. now apply server_accepted_invokes.
  - intros Hnone.
    destruct (server_paths env req)
      as [[_ Hrun]|[(_ & _ & Hrun)|[(msg & _ & _ & _ & Hrun)|[c Hacc]]]];
      try (rewrite Hrun; reflexivity).
    exfalso. exact (Hnone c Hacc).
Qed.

(** X19: when the 100-second timer fires while a non-streaming request
    waits for its wrapper, the callback of the timer answers 504 with the
    object whose message is [Request timed out] and ends the response.
    Whatever the wrapper does afterwards, nothing more is written: the
    handler is rejected, by the refused header of its answer or by the
    refused [res.json] of its catch block. *)
Theorem server_answers_504_when_the_timer_fires (c : Credentials) :
  Server.accepted env req c ->
  stream p = false ->
  Server.times_out env req c = true ->
  let r := Server.chat_completions env req start in
  fst r = Err ERR_HTTP_HEADERS_SENT /\
  res (snd r) = Reply.server_timed_out env /\
  Reply.wire_status (res (snd r)) = Some 504%Z /\
  written (res (snd r)) = [JSON_stringify env Server.timed_out] /\
  finished (res (snd r)) = true /\
  option_map (prop "message") (prop "error" Server.timed_out)
  = Some (Some (JStr "Request timed out")).
Proof.
  intros Hacc Hstream Htime r. subst r.
  pose proof (server_run_unstreamed Hacc Hstream) as Hrun. cbv zeta in Hrun.
  destruct Hrun as (tr & Hrun & _). rewrite Htime in Hrun. rewrite Hrun.
  repeat split.
Qed.


(** ** The usage of a completion *)

Lemma content_length_sum (ms : list Message) :
  Server.content_length ms = Reply.total_length (map content ms).
Proof.
  unfold Server.content_length, Reply.total_length.
  assert (Hfold : forall acc,
             fold_left (fun a msg => (a + Z.of_nat (js_length (content msg)))%Z) ms acc
             = (acc + Z.of_nat (list_sum (map js_length (map content ms))))%Z).
  { induction ms as [|m rest IH]; intros acc; simpl.
    - lia.
    - rewrite IH. lia. }
  now rewrite Hfold.
Qed.

(** X8: the [usage] of a completed non-streaming answer counts UTF-16
    code units, as [.length] does: [prompt_tokens] is the total length of
    the message contents, [completion_tokens] the total length of the
    chunks the wrapper yielded, and [total_tokens] their sum. *)
Theorem server_usage_counts_code_units (c : Credentials) (chunks : list string) :
  Server.accepted env req c ->
  stream p = false ->
  bedrockWrapper env (Server.creds_of c) p (CONSOLE_LOGGING env)
  = mkGeneration chunks None ->
  Server.times_out env req c = false ->
  exists answer,
    written (res (snd (Server.chat_completions env req start)))
    = [JSON_stringify env answer] /\
    Reply.usage "prompt_tokens" answer
    = Some (JNum (inject_Z (Z.of_nat (list_sum (map js_length (map content (messages p))))))) /\
    Reply.usage "completion_tokens" answer
    = Some (JNum (inject_Z (Z.of_nat (list_sum (map js_length chunks))))) /\
    Reply.usage "total_tokens" answer
    = Some (JNum (inject_Z (Z.of_nat (list_sum (map js_length (map content (messages p))))
                            + Z.of_nat (list_sum (map js_length chunks))))).
Proof.
  intros Hacc Hstream Hgen Htime.
  pose proof (server_run_unstreamed Hacc Hstream) as Hrun. cbv zeta in Hrun.
  destruct Hrun as (tr & Hrun & _). fold p in Hrun.
  rewrite Htime, Hgen in Hrun. cbn [thrown yielded] in Hrun. rewrite Hrun.
  cbn [snd res]. eexists. split; [ reflexivity | ].
  unfold Reply.usage, Server.completion. cbn [prop assoc String.eqb Ascii.eqb Bool.eqb].
  rewrite content_length_sum, length_concat_chunks. repeat split.
Qed.

End ServerProperties.

(** ** Every path of the serverless handler *)

Section ServerlessPaths.

Import Express.

Variable env : Environment.

Variable req : Request.

Let p : BedrockParams := Serverless.destructure (body req).

Let token : option string := Serverless.bearer_token (rawHeaders req).

Lemma text_run (code : Z) (text : string) :
  (res_status code ;; res_send text) start = (Ok tt, Reply.text_reply code text).
Proof. unfold start. run_handler. reflexivity. Qed.

Lemma serverless_run_no_messages :
  messages p = [] ->
  Serverless.chat_completions env req start
  = (Ok tt, Reply.text_reply 400 "Messages array is empty").
Proof.
  intros Hnone. unfold Serverless.chat_completions. cbv zeta.
  fold p. rewrite Hnone. apply text_run.
Qed.

Lemma serverless_run_token_error (msg : string) :
  messages p <> [] ->
  extractAWSCreds env token = TokenError msg ->
  Serverless.chat_completions env req start = (Ok tt, Reply.text_reply 401 msg).
Proof.
  intros Hmsgs Hcreds. unfold Serverless.chat_completions. cbv zeta.
  fold p. destruct (messages p) as [|m ms]; [ contradiction | ].
  fold token. rewrite Hcreds. apply text_run.
Qed.

Lemma serverless_run_unauthorized (c : Credentials) :
  messages p <> [] ->
  extractAWSCreds env token = TokenOk c ->
  truthy (AWS_ACCESS_KEY_ID c) = false \/ truthy (AWS_SECRET_ACCESS_KEY c) = false ->
  Serverless.chat_completions env req start
  = (Ok tt, Reply.text_reply 401 "Unauthorized").
Proof.
  intros Hmsgs Hcreds Hfalsy. unfold Serverless.chat_completions. cbv zeta.
  fold p. destruct (messages p) as [|m ms]; [ contradiction | ].
  fold token. rewrite Hcreds.
  replace (orb (negb (truthy (AWS_ACCESS_KEY_ID c)))
             (negb (truthy (AWS_SECRET_ACCESS_KEY c)))) with true.
  - apply text_run.
  - destruct Hfalsy as [H|H]; rewrite H;
      [ reflexivity | destruct (truthy (AWS_ACCESS_KEY_ID c)); reflexivity ].
Qed.

(** The four ways an accepted request ends. *)
Lemma serverless_run_accepted (c : Credentials) :
  Serverless.accepted env req c ->
  let g := bedrockWrapper env (Serverless.creds_of c) p (CONSOLE_LOGGING env) in
  let frames := Reply.serverless_frames env (yielded g) in
  let answer :=
    JSON_stringify env (Serverless.complete (String.concat EmptyString (yielded g))) in
  let called :=
    [WriteHead 200 Serverless.event_stream;
     Invoke (Serverless.creds_of c) p (CONSOLE_LOGGING env)] in
  Serverless.chat_completions env req start
  = (Ok tt,
     if stream p then
       match thrown g with
       | None =>
           mkWorld (Reply.streaming Serverless.event_stream frames true 200) 0
             (called ++ map WriteChunk frames ++ [EndResponse])
             Registry.bedrock_models
       | Some e =>
           mkWorld (Reply.streaming Serverless.event_stream frames false 200) 0
             (called ++ map WriteChunk frames)
             Registry.bedrock_models
       end
     else
       match thrown g with
       | None =>
           mkWorld (Reply.streaming Serverless.event_stream [answer] true 200) 0
             (called ++ [WriteChunk answer; EndResponse])
             Registry.bedrock_models
       | Some e =>
           mkWorld (Reply.streaming Serverless.event_stream [] false 200) 0
             called
             Registry.bedrock_models
       end).
Proof.
  intros Hacc g frames answer called.
  rewrite (serverless_accepted Hacc). fold p.
  rewrite run_bind, serverless_head. cbv beta iota.
  rewrite run_try_catch, serverless_try. cbv zeta. fold g.
  destruct (stream p); destruct (thrown g) as [e|];
    try rewrite serverless_catch_guarded by reflexivity;
    reflexivity.
Qed.

(** The paths of the handler, one of which every request takes. *)
Lemma serverless_paths :
  (exists code text,
      Serverless.chat_completions env req start = (Ok tt, Reply.text_reply code text) /\
      In code [400; 401]%Z /\
      forall c, ~ Serverless.accepted env req c) \/
  (exists c, Serverless.accepted env req c).
Proof.
  destruct (messages p) as [|m ms] eqn:Hmsgs.
  - left. exists 400%Z, "Messages array is empty".
    split; [ now apply serverless_run_no_messages | ].
    split; [ simpl; tauto | ].
    intros c (Hne & _). fold p in Hne. now rewrite Hmsgs in Hne.
  - assert (Hne : messages p <> []) by (rewrite Hmsgs; discriminate).
    destruct (extractAWSCreds env token) as [msg|c] eqn:Hcreds.
    + left. exists 401%Z, msg.
      split; [ now apply serverless_run_token_error | ].
      split; [ simpl; tauto | ].
      intros c (_ & Hok & _). fold token in Hok. rewrite Hcreds in Hok. discriminate.
    + destruct (truthy (AWS_ACCESS_KEY_ID c)) eqn:Hkey;
        [ destruct (truthy (AWS_SECRET_ACCESS_KEY c)) eqn:Hsecret | ].
      * right. exists c. repeat split; assumption.
      * left. exists 401%Z, "Unauthorized".
        split; [ apply (serverless_run_unauthorized Hne Hcreds); now right | ].
        split; [ simpl; tauto | ].
        intros c' (_ & Hok & _ & Hs). fold token in Hok. rewrite Hcreds in Hok.
        injection Hok as <-. rewrite Hsecret in Hs. discriminate.
      * left. exists 401%Z, "Unauthorized".
        split; [ apply (serverless_run_unauthorized Hne Hcreds); now left | ].
        split; [ simpl; tauto | ].
        intros c' (_ & Hok & Hk & _). fold token in Hok. rewrite Hcreds in Hok.
        injection Hok as <-. rewrite Hkey in Hk. discriminate.
Qed.

End ServerlessPaths.

(** ** Authentication in the serverless handler *)

(** X10: the serverless handler takes its token from the first item of
    [req.rawHeaders], name or value, that starts with [Bearer ], and drops
    those seven characters; with no such item the token is [null]. *)
Theorem serverless_token_of_the_raw_headers :
  (forall before t after,
      Forall (fun x => prefix "Bearer " x = false) before ->
      Serverless.bearer_token (before ++ ("Bearer " ++ t) :: after) = Some t) /\
  (forall raw,
      Forall (fun x => prefix "Bearer " x = false) raw ->
      Serverless.bearer_token raw = None) /\
  (forall raw t,
      Serverless.bearer_token raw = Some t -> In ("Bearer " ++ t) raw).
Proof.
  assert (Hskip : forall before rest,
             Forall (fun x => prefix "Bearer " x = false) before ->
             find (prefix "Bearer ") (before ++ rest) = find (prefix "Bearer ") rest).
  { induction before as [|x before IH]; intros rest Hall; [ reflexivity | ].
    inversion Hall as [|? ? Hx Hrest]; subst.
    cbn [app find]. rewrite Hx. now apply IH. }
  split; [ | split ].
  - intros before t after Hall. unfold Serverless.bearer_token.
    rewrite (Hskip _ _ Hall). cbn [find].
    rewrite (prefix_append "Bearer " t).
    change 7 with (String.length "Bearer ").
    now rewrite substring_after.
  - intros raw Hall. unfold Serverless.bearer_token.
    rewrite <- (app_nil_r raw), (Hskip _ _ Hall). reflexivity.
  - intros raw t. unfold Serverless.bearer_token.
    destruct (find (prefix "Bearer ") raw) as [b|] eqn:Hfind; [ | discriminate ].
    apply find_some in Hfind. destruct Hfind as [Hin Hp].
    destruct (Express.truthy (Some b)); [ | discriminate ].
    intros [= <-].
    change 7 with (String.length "Bearer ").
    now rewrite <- (prefix_split _ _ Hp).
Qed.

Section ServerlessProperties.

Import Express.

Variable env : Environment.

Variable req : Request.

Let p : BedrockParams := Serverless.destructure (body req).

(** X9: a request with messages whose token the credential parser
    refuses is answered 401 with the parser's message, and one whose
    parsed credentials lack the access key id or the secret is answered
    401 [Unauthorized]; in both cases as plain text, before the 200 head
    is written and without invoking the wrapper. *)
Theorem serverless_refuses_bad_credentials :
  messages p <> [] ->
  (forall msg,
      extractAWSCreds env (Serverless.bearer_token (rawHeaders req)) = TokenError msg ->
      Serverless.chat_completions env req start = (Ok tt, Reply.text_reply 401 msg)) /\
  (forall c,
      extractAWSCreds env (Serverless.bearer_token (rawHeaders req)) = TokenOk c ->
      truthy (AWS_ACCESS_KEY_ID c) = false \/ truthy (AWS_SECRET_ACCESS_KEY c) = false ->
      Serverless.chat_completions env req start
      = (Ok tt, Reply.text_reply 401 "Unauthorized")) /\
  (forall text,
      Reply.sent_status (res (Reply.text_reply 401 text)) = Some 401%Z /\
      written (res (Reply.text_reply 401 text)) = [text] /\
      finished (res (Reply.text_reply 401 text)) = true /\
      invocations (Reply.text_reply 401 text) = []).
Proof.
  intros Hmsgs. split; [ | split ].
  - intros msg Hcreds. now apply serverless_run_token_error.
  - intros c Hcreds Hfalsy. now apply (serverless_run_unauthorized env req Hmsgs Hcreds).
  - intros text. repeat split.
Qed.

(** ** The backend call in the serverless handler *)

(** X11: when the wrapper yields chunks and ends, the streaming request
    is answered with one frame per chunk, in order, each the text
    [data: ], the serialised object whose [choices[0].delta.content] is
    the chunk, and two line feeds, and then ended, with no closing or
    [DONE] frame; the non-streaming request is answered with one
    serialised object, not framed, whose [choices[0].message.content] is
    the concatenation of the chunks.  Both leave under status 200 and the
    event-stream headers. *)
Theorem serverless_stream_matches_answer (c : Credentials) (chunks : list string) :
  Serverless.accepted env req c ->
  bedrockWrapper env (Serverless.creds_of c) p (CONSOLE_LOGGING env)
  = mkGeneration chunks None ->
  let r := res (snd (Serverless.chat_completions env req start)) in
  let event (object : JValue) : string :=
    "data: " ++ JSON_stringify env object ++ String "010" (String "010" EmptyString) in
  head r = Some (200%Z, Serverless.event_stream) /\
  Reply.wire_status r = Some 200%Z /\
  finished r = true /\
  (stream p = true ->
   written r = map event (map Serverless.delta chunks)) /\
  map (choice_content "delta") (map Serverless.delta chunks) = map Some chunks /\
  (stream p = false ->
   written r
   = [JSON_stringify env (Serverless.complete (String.concat EmptyString chunks))]) /\
  choice_content "message" (Serverless.complete (String.concat EmptyString chunks))
  = Some (String.concat EmptyString chunks).
Proof.
  intros Hacc Hgen r event. subst r.
  rewrite (serverless_run_accepted Hacc). cbv zeta. fold p. rewrite Hgen.
  cbn [thrown yielded snd].
  assert (Hdelta : map (choice_content "delta") (map Serverless.delta chunks)
                   = map Some chunks).
  { rewrite map_map. apply map_ext. reflexivity. }
  destruct (stream p); unfold Reply.streaming, Reply.wire_status, Reply.flushed;
    cbn [res head finished written];
    (split; [ reflexivity | ]);
    (split; [ try reflexivity | ]);
    [ destruct (Reply.serverless_frames env chunks); reflexivity | | ];
    (split; [ reflexivity | ]);
    (split; [ | split; [ exact Hdelta | split; [ | reflexivity ] ] ]);
    intros Hs; try discriminate.
  - unfold Reply.serverless_frames. now rewrite map_map.
  - reflexivity.
Qed.

(** X12: when the wrapper of an accepted request throws, the handler
    returns without telling the client.  The response is never ended; its
    body is the frames of the chunks yielded so far for a streaming
    request and empty for a non-streaming one; the client has received
    status 200 if a frame was written, and nothing at all, no status
    either, otherwise. *)
Theorem serverless_failure_is_silent (c : Credentials) (chunks : list string)
  (e : JSError) :
  Serverless.accepted env req c ->
  bedrockWrapper env (Serverless.creds_of c) p (CONSOLE_LOGGING env)
  = mkGeneration chunks (Some e) ->
  let r := Serverless.chat_completions env req start in
  fst r = Ok tt /\
  res (snd r)
  = Reply.streaming Serverless.event_stream
      (if stream p then Reply.serverless_frames env chunks else [])
      false 200 /\
  finished (res (snd r)) = false /\
  Reply.wire_status (res (snd r))
  = if stream p
    then match chunks with
         | [] => None
         | _ :: _ => Some 200%Z
         end
    else None.
Proof.
  intros Hacc Hgen r. subst r.
  rewrite (serverless_run_accepted Hacc). cbv zeta. fold p. rewrite Hgen.
  cbn [thrown yielded]. destruct (stream p); repeat split.
  destruct chunks; reflexivity.
Qed.


(** X14: the serverless handler invokes the wrapper at most once per
    request: exactly once when the request is accepted, with the parsed
    credentials and the destructured parameters of the body, and never
    when it is refused. *)
Theorem serverless_invokes_the_wrapper_once :
  let w := snd (Serverless.chat_completions env req start) in
  (forall c,
      Serverless.accepted env req c ->
      invocations w = [Invoke (Serverless.creds_of c) p (CONSOLE_LOGGING env)]) /\
  ((forall c, ~ Serverless.accepted env req c) -> invocations w = []).
Proof.
  intros w. subst w. split.
  - intros c Hacc. rewrite (serverless_run_accepted Hacc). cbv zeta. fold p.
    destruct (stream p);
      destruct (thrown (bedrockWrapper env (Serverless.creds_of c) p (CONSOLE_LOGGING env)));
      cbn [snd]; try reflexivity.
    + rewrite <- (app_nil_r (map WriteChunk _)). now rewrite invocations_skip_writes.
    + now rewrite invocations_skip_writes.
  - intros Hnone.
    destruct (serverless_paths env req) as [(code & text & Hrun & _ & _)|[c Hacc]].
    + rewrite Hrun. reflexivity.
    + exfalso. exact (Hnone c Hacc).
Qed.

End ServerlessProperties.

(** ** The error-handling middleware *)

(** X15: the middleware decides by the error alone.  On a response whose
    head is not yet sent it either answers 500 in plain text (a reset
    connection, or an error without [headersSent]) or hands an error with
    [headersSent] on to [next] untouched, and never throws.  It does not
    look at the response: when the head is already sent and the error is
    not handed on, it assigns status 500 and its [res.send] is refused, so
    the middleware itself throws and nothing is written. *)
Theorem middleware_answers_500_or_hands_on (err : Middleware.ErrorInfo)
  (code : Z) (hs : Express.Headers) (wr : list string) (t : nat)
  (tr : list Express.Action) (ms : list JValue) :
  let answer (text : string) :=
    (Ok false,
     Express.mkWorld
       (Express.mkResponse 500
          (Express.set_header "Content-Type" (Express.sent_type hs) hs)
          (Some (500%Z, Express.set_header "Content-Type" (Express.sent_type hs) hs))
          (wr ++ [text]) true)
       t
       (tr ++ [Express.SetStatus 500;
               Express.SetHeader "Content-Type" (Express.sent_type hs);
               Express.WriteChunk text;
               Express.EndResponse])
       ms) in
  Middleware.handle err
    (Express.mkWorld (Express.mkResponse code hs None wr false) t tr ms)
  = (if Middleware.is_reset err then answer "Connection reset by peer"
     else if Middleware.err_headersSent err
          then (Ok true,
                Express.mkWorld (Express.mkResponse code hs None wr false) t tr ms)
          else answer "Something broke!") /\
  (forall h fin,
      Middleware.handle err
        (Express.mkWorld (Express.mkResponse code hs (Some h) wr fin) t tr ms)
      = if andb (negb (Middleware.is_reset err)) (Middleware.err_headersSent err)
        then (Ok true,
              Express.mkWorld (Express.mkResponse code hs (Some h) wr fin) t tr ms)
        else (Err Express.ERR_HTTP_HEADERS_SENT,
              Express.mkWorld (Express.mkResponse 500 hs (Some h) wr fin) t
                (tr ++ [Express.SetStatus 500]) ms)).
Proof.
  intros answer. subst answer. unfold Middleware.handle. split.
  - destruct (Middleware.is_reset err); [ | destruct (Middleware.err_headersSent err) ];
      run_handler; rewrite <- ?app_assoc; reflexivity.
  - intros h fin.
    destruct (Middleware.is_reset err); [ | destruct (Middleware.err_headersSent err) ];
      cbn [negb andb]; run_handler; reflexivity.
Qed.

(** ** More on the registry *)

(** X16: every entry of the registry is complete for its convention: it
    has a [modelId], a [display_role_names] flag, a token parameter named
    [max_tokens] or [max_gen_len] and a positive token limit of at most
    8192; an entry of the messages API asks for the system message as a
    separate field and carries an [anthropic_version]; an entry of the
    flattened convention defines every one of the fourteen template
    strings. *)
Theorem registry_entries_are_complete :
  Forall
    (fun d =>
       is_defined (Registry.modelId d) = true /\
       is_defined (as_bool (prop "display_role_names" d)) = true /\
       (Registry.max_tokens_param_name d = Some "max_tokens" \/
        Registry.max_tokens_param_name d = Some "max_gen_len") /\
       (exists n, Registry.max_supported_response_tokens d = Some n /\ 0 < n <= 8192)%Z /\
       match Registry.messages_api d with
       | Some true =>
           as_bool (prop "system_as_separate_field" d) = Some true /\
           match prop "special_request_schema" d with
           | Some schema => Reply.defines_string schema "anthropic_version" = true
           | None => False
           end
       | Some false => forallb (Reply.defines_string d) Reply.template_keys = true
       | None => False
       end)
    Registry.bedrock_models.
Proof.
  repeat (constructor;
          [ split; [ reflexivity | ];
            split; [ reflexivity | ];
            split; [ first [ left; reflexivity | right; reflexivity ] | ];
            split; [ eexists; split; [ reflexivity | cbn; lia ] | ];
            first [ split; reflexivity | reflexivity ]
          | ]).
  constructor.
Qed.

(** X17: no two entries of the registry share a [modelId]. *)
Theorem model_ids_are_distinct : NoDup (map Registry.modelId Registry.bedrock_models).
Proof.
  simpl.
  repeat (constructor; [ simpl; intuition discriminate | ]).
  constructor.
Qed.

(** X18: the registry is keyed by name: each of its seventeen entries has
    a [modelName], and no two entries share one. *)
Theorem model_names_are_distinct :
  List.length Registry.bedrock_models = 17 /\
  Forall (fun n : option string => n <> None) Registry.model_names /\
  NoDup Registry.model_names.
Proof.
  split; [ reflexivity | ].
  split; [ exact names_are_defined | exact names_are_distinct ].
Qed.

(** ** The further properties on the sample backends *)

Lemma server_requires_a_token_witness :
  Express.res
    (snd (Server.chat_completions (Sample.environment [] None) Cases.anonymous
            Express.start))
  = Reply.answered 401 "application/json" (Sample.render Server.no_token).
Proof.
  exact (proj1 (proj2
           (@server_requires_a_token (Sample.environment [] None) Cases.anonymous
              ltac:(discriminate) (or_introl eq_refl)))).
Defined.

Lemma server_reports_the_parser_error_witness :
  Express.res
    (snd (Server.chat_completions Cases.refusing
            (Sample.request (Some Sample.hello) None) Express.start))
  = Reply.answered 401 "application/json"
      (Sample.render (Server.error_body "Invalid token format" "auth_error" 401)).
Proof.
  exact (proj1 (proj2
           (@server_reports_the_parser_error Cases.refusing
              (Sample.request (Some Sample.hello) None)
              "Bearer token" "Invalid token format"
              ltac:(discriminate) eq_refl ltac:(discriminate) ltac:(discriminate)
              eq_refl))).
Defined.

Lemma server_token_of_the_header_witness :
  Express.invocations
    (snd (Server.chat_completions (Sample.environment [] None) Cases.shifted
            Express.start))
  = [Express.Invoke
       (Express.mkCreds (Some "us-east-1") (Some "xtoken") (Some "xtoken"))
       (Express.mkParams Sample.hello "claude-3-5-sonnet" 800 false 0.4 0.9) false].
Proof.
  exact (proj2
           (proj1
              (@server_token_of_the_header (Sample.environment [] None) Cases.shifted
                 ltac:(discriminate))
              "x" "token" eq_refl eq_refl ltac:(discriminate))
           _ eq_refl).
Defined.

Lemma server_unstreamed_failure_is_a_500_witness :
  Express.res
    (snd (Server.chat_completions
            (Sample.environment ["Hel"] (Some Sample.Throttling))
            (Sample.request (Some Sample.hello) None) Express.start))
  = Reply.answered 500 "application/json" (Sample.render Server.processing_error).
Proof.
  exact (proj1 (proj2
           (@server_unstreamed_failure_is_a_500
              (Sample.environment ["Hel"] (Some Sample.Throttling))
              (Sample.request (Some Sample.hello) None)
              Cases.token_credentials ["Hel"] Sample.Throttling
              (sample_accepted_by_server _ _ _) eq_refl eq_refl eq_refl))).
Defined.


Lemma server_usage_counts_code_units_witness :
  exists answer,
    Express.written
      (Express.res
         (snd (Server.chat_completions (Sample.environment ["Hel"; "lo"] None)
                 (Sample.request (Some Cases.nihon) None) Express.start)))
    = [Sample.render answer] /\
    Reply.usage "prompt_tokens" answer = Some (JNum 2) /\
    Reply.usage "completion_tokens" answer = Some (JNum 5) /\
    Reply.usage "total_tokens" answer = Some (JNum 7).
Proof.
  exact (@server_usage_counts_code_units (Sample.environment ["Hel"; "lo"] None)
           (Sample.request (Some Cases.nihon) None)
           Cases.token_credentials ["Hel"; "lo"]
           (nihon_accepted_by_server _ _ _) eq_refl eq_refl eq_refl).
Defined.

Lemma server_answers_504_when_the_timer_fires_witness :
  fst (Server.chat_completions (Cases.slow ["Hel"] (Some Sample.Throttling) 1)
         (Sample.request (Some Sample.hello) None) Express.start)
  = Err Express.ERR_HTTP_HEADERS_SENT /\
  Express.written
    (Express.res
       (snd (Server.chat_completions (Cases.slow ["Hel"] (Some Sample.Throttling) 1)
               (Sample.request (Some Sample.hello) None) Express.start)))
  = [Sample.render Server.timed_out].
Proof.
  pose proof
    (@server_answers_504_when_the_timer_fires
       (Cases.slow ["Hel"] (Some Sample.Throttling) 1)
       (Sample.request (Some Sample.hello) None) Cases.token_credentials
       (slow_accepted_by_server _ _ _ _) eq_refl eq_refl) as H.
  split; [ exact (proj1 H) | exact (proj1 (proj2 (proj2 (proj2 H)))) ].
Defined.

Lemma serverless_refuses_bad_credentials_witness :
  Serverless.chat_completions Cases.refusing
    (Sample.request (Some Sample.hello) None) Express.start
  = (Ok tt, Reply.text_reply 401 "Invalid token format") /\
  Serverless.chat_completions Cases.keyless
    (Sample.request (Some Sample.hello) None) Express.start
  = (Ok tt, Reply.text_reply 401 "Unauthorized").
Proof.
  split.
  - exact (proj1
             (@serverless_refuses_bad_credentials Cases.refusing
                (Sample.request (Some Sample.hello) None) ltac:(discriminate))
             "Invalid token format" eq_refl).
  - exact (proj1 (proj2
             (@serverless_refuses_bad_credentials Cases.keyless
                (Sample.request (Some Sample.hello) None) ltac:(discriminate)))
             _ eq_refl (or_introl eq_refl)).
Defined.

Lemma serverless_stream_matches_answer_witness :
  Express.written
    (Express.res
       (snd (Serverless.chat_completions (Sample.environment ["Hel"; "lo"] None)
               (Sample.request (Some Sample.hello) None) Express.start)))
  = ["data: " ++ Sample.render (Serverless.delta "Hel")
       ++ String "010" (String "010" EmptyString);
     "data: " ++ Sample.render (Serverless.delta "lo")
       ++ String "010" (String "010" EmptyString)] /\
  Express.written
    (Express.res
       (snd (Serverless.chat_completions (Sample.environment ["Hel"; "lo"] None)
               (Sample.request (Some Sample.hello) (Some false)) Express.start)))
  = [Sample.render (Serverless.complete "Hello")].
Proof.
  split.
  - exact (proj1 (proj2 (proj2 (proj2
             (@serverless_stream_matches_answer (Sample.environment ["Hel"; "lo"] None)
                (Sample.request (Some Sample.hello) None)
                Cases.token_credentials ["Hel"; "lo"]
                (sample_accepted_by_serverless _ _ _) eq_refl))))
             eq_refl).
  - exact (proj1 (proj2 (proj2 (proj2 (proj2 (proj2
             (@serverless_stream_matches_answer (Sample.environment ["Hel"; "lo"] None)
                (Sample.request (Some Sample.hello) (Some false))
                Cases.token_credentials ["Hel"; "lo"]
                (sample_accepted_by_serverless _ _ _) eq_refl))))))
             eq_refl).
Defined.

Lemma serverless_failure_is_silent_witness :
  Express.res
    (snd (Serverless.chat_completions
            (Sample.environment ["Hel"] (Some Sample.Throttling))
            (Sample.request (Some Sample.hello) (Some false)) Express.start))
  = Reply.streaming Serverless.event_stream [] false 200 /\
  Reply.wire_status
    (Express.res
       (snd (Serverless.chat_completions
               (Sample.environment ["Hel"] (Some Sample.Throttling))
               (Sample.request (Some Sample.hello) (Some false)) Express.start)))
  = None.
Proof.
  pose proof
    (@serverless_failure_is_silent
       (Sample.environment ["Hel"] (Some Sample.Throttling))
       (Sample.request (Some Sample.hello) (Some false))
       Cases.token_credentials ["Hel"] Sample.Throttling
       (sample_accepted_by_serverless _ _ _) eq_refl) as H.
  split; [ exact (proj1 (proj2 H)) | exact (proj2 (proj2 (proj2 H))) ].
Defined.
